(** * Shallow embedding of pymysqlreplication's byte decoders

    Sources: [src/pymysqlreplication/protocol.py] (StructMysql,
    WrapperPayload, WrapperJson, read_offset_or_inline) and
    [src/pymysqlreplication/packet.py] (BinLogPacketWrapper).

    Python objects mutated by method calls are modelled by explicit state
    passing; Python exceptions are modelled by an error result that keeps the
    state reached when the exception was raised (Python does not roll back
    attribute updates). *)

From Stdlib Require Import ZArith List String Ascii Bool Lia.
Import ListNotations.
Open Scope Z_scope.

(** ** Python runtime: exceptions, a state/exception monad *)

Inductive py_error : Type :=
| ValueError (msg : string)
| IndexError
| AttributeError (name : string)
| StructError
| InvalidOperation
| RecursionError
| TypeError.

Inductive result (A : Type) : Type :=
| Ok (a : A)
| Err (e : py_error).
Arguments Ok {A} a.
Arguments Err {A} e.

(** A method of an object of state type [S]. *)
Definition M (S A : Type) : Type := S -> result A * S.

Definition ret {S A} (a : A) : M S A := fun s => (Ok a, s).
Definition raise {S A} (e : py_error) : M S A := fun s => (Err e, s).
Definition bind {S A B} (m : M S A) (k : A -> M S B) : M S B :=
  fun s => match m s with
           | (Ok a, s') => k a s'
           | (Err e, s') => (Err e, s')
           end.
Definition get {S} : M S S := fun s => (Ok s, s).
Definition put {S} (s : S) : M S unit := fun _ => (Ok tt, s).

(** [try: m except Exception: h] *)
Definition try_except {S A} (m : M S A) (h : py_error -> M S A) : M S A :=
  fun s => match m s with
           | (Ok a, s') => (Ok a, s')
           | (Err e, s') => h e s'
           end.

Notation "x <- m ;; k" := (bind m (fun x => k))
  (at level 61, m at next level, right associativity).
Notation "m ;;; k" := (bind m (fun _ => k))
  (at level 61, right associativity).

(** ** Python bytes, slicing and indexing *)

(** A [bytes] object: its items are ints in [0, 255]. *)
Definition bytes : Type := list Z.

Definition py_len {A} (l : list A) : Z := Z.of_nat (List.length l).

(** Normalisation of a slice bound [i] (negative counts from the end). *)
Definition slice_bound (len i : Z) : Z :=
  if i <? 0 then Z.max 0 (i + len) else Z.min i len.

(** [l[a:b]] *)
Definition py_slice {A} (l : list A) (a b : Z) : list A :=
  let n := py_len l in
  let a' := slice_bound n a in
  let b' := slice_bound n b in
  firstn (Z.to_nat (b' - a')) (skipn (Z.to_nat a') l).

(** [l[i]], raising IndexError out of range. *)
Definition py_index {A} (l : list A) (i : Z) : result A :=
  let i' := if i <? 0 then i + py_len l else i in
  if i' <? 0 then Err IndexError
  else match nth_error l (Z.to_nat i') with
       | Some x => Ok x
       | None => Err IndexError
       end.

(** Unsigned value of a little-endian byte string. *)
Fixpoint le_val (bs : bytes) : Z :=
  match bs with
  | [] => 0
  | b :: rest => b + 256 * le_val rest
  end.

Definition be_val (bs : bytes) : Z := le_val (rev bs).

(** Two's complement reading of an unsigned [8*w]-bit value. *)
Definition to_signed (w v : Z) : Z :=
  if v >=? 2 ^ (8 * w - 1) then v - 2 ^ (8 * w) else v.

(** ** The [struct] module *)

Inductive endian := Little | Big.

(** Format characters used by the sources, with their standard sizes
    (the sources always give '<' or '>', so standard sizes apply:
    'l' is 4 bytes there). *)
Inductive fmt_char := Fc | Fb | FB | Fh | FH | Fi | FI | Fl | Fq | FQ.

Definition fmt_size (c : fmt_char) : nat :=
  match c with
  | Fc | Fb | FB => 1
  | Fh | FH => 2
  | Fi | FI | Fl => 4
  | Fq | FQ => 8
  end.

Definition fmt_signed (c : fmt_char) : bool :=
  match c with
  | Fb | Fh | Fi | Fl | Fq => true
  | _ => false
  end.

Inductive pyval := VInt (z : Z) | VBytes (b : bytes).

Definition decode_item (e : endian) (c : fmt_char) (bs : bytes) : pyval :=
  match c with
  | Fc => VBytes bs
  | _ =>
    let u := match e with Little => le_val bs | Big => be_val bs end in
    VInt (if fmt_signed c then to_signed (Z.of_nat (fmt_size c)) u else u)
  end.

Fixpoint unpack_items (e : endian) (fmt : list fmt_char) (bs : bytes)
  : list pyval :=
  match fmt with
  | [] => []
  | c :: rest =>
    decode_item e c (firstn (fmt_size c) bs)
      :: unpack_items e rest (skipn (fmt_size c) bs)
  end.

Definition calcsize (fmt : list fmt_char) : nat :=
  fold_right (fun c n => (fmt_size c + n)%nat) O fmt.

(** [struct.unpack(fmt, bs)]: struct.error unless the buffer has exactly
    [calcsize(fmt)] bytes. *)
Definition struct_unpack (e : endian) (fmt : list fmt_char) (bs : bytes)
  : result (list pyval) :=
  if Nat.eqb (List.length bs) (calcsize fmt) then Ok (unpack_items e fmt bs)
  else Err StructError.

Definition as_int (v : pyval) : Z :=
  match v with VInt z => z | VBytes _ => 0 end.

(** [struct.unpack(fmt, bs)[0]] for a one-item integer format. *)
Definition unpack1 (e : endian) (c : fmt_char) (bs : bytes) : result Z :=
  match struct_unpack e [c] bs with
  | Ok (v :: _) => Ok (as_int v)
  | Ok [] => Err IndexError
  | Err err => Err err
  end.

(** [pymysql.util.byte2int] on a bytes object (Python 3):
    [struct.unpack("!B", b)[0]]. *)
Definition byte2int (b : bytes) : result Z := unpack1 Big FB b.

Definition lift {S A} (r : result A) : M S A :=
  match r with Ok a => ret a | Err e => raise e end.

(** ** Constants *)

(** Modelled from the spec: the [constants] module (imported by
    protocol.py with [from .constants import *]) is not present; the values
    of the length-coded-integer prefixes are those of the spec's table
    (section 6). *)
Definition NULL_COLUMN : Z := 251.
Definition UNSIGNED_CHAR_COLUMN : Z := 251.
Definition UNSIGNED_SHORT_COLUMN : Z := 252.
Definition UNSIGNED_INT24_COLUMN : Z := 253.
Definition UNSIGNED_INT64_COLUMN : Z := 254.
Definition UNSIGNED_SHORT_LENGTH : Z := 2.
Definition UNSIGNED_INT24_LENGTH : Z := 3.
Definition UNSIGNED_INT64_LENGTH : Z := 8.

(** ** StructMysql: decoders shared by every reader

    [StructMysql] is a mixin whose methods only use [self.read]; its
    subclasses provide [read]. *)
Class StructMysql (S : Type) := { read : Z -> M S bytes }.

Section StructMysqlMethods.
Context {S : Type} `{StructMysql S}.

Definition read_unpack (e : endian) (c : fmt_char) : M S Z :=
  b <- read (Z.of_nat (fmt_size c)) ;; lift (unpack1 e c b).

Definition read_uint8 : M S Z := read_unpack Little FB.
Definition read_int16 : M S Z := read_unpack Little Fh.
Definition read_uint16 : M S Z := read_unpack Little FH.
Definition read_uint32 : M S Z := read_unpack Little FI.
Definition read_int32 : M S Z := read_unpack Little Fi.
Definition read_uint64 : M S Z := read_unpack Little FQ.
Definition read_int64 : M S Z := read_unpack Little Fq.

(** [a, b, c = struct.unpack('BBB', self.read(3))] *)
Definition read_int24_be : M S Z :=
  b <- read 3 ;;
  match struct_unpack Big [FB; FB; FB] b with
  | Ok [va; vb; vc] =>
    let res := Z.lor (Z.lor (Z.shiftl (as_int va) 16) (Z.shiftl (as_int vb) 8))
                     (as_int vc) in
    ret (if res >=? 8388608 then res - 16777216 else res)
  | Ok _ => raise StructError
  | Err e => raise e
  end.

(** [a, b = struct.unpack(">IB", self.read(5)); return b + (a << 8)] *)
Definition read_int40_be : M S Z :=
  b <- read 5 ;;
  match struct_unpack Big [FI; FB] b with
  | Ok [va; vb] => ret (as_int vb + Z.shiftl (as_int va) 8)
  | Ok _ => raise StructError
  | Err e => raise e
  end.

(** [read_int_be_by_size]: [None] when no branch matches (the method then
    returns Python's None). *)
Definition read_int_be_by_size (size : Z) : M S (option Z) :=
  if size =? 1 then b <- read size ;; v <- lift (unpack1 Big Fb b) ;; ret (Some v)
  else if size =? 2 then b <- read size ;; v <- lift (unpack1 Big Fh b) ;; ret (Some v)
  else if size =? 3 then v <- read_int24_be ;; ret (Some v)
  else if size =? 4 then b <- read size ;; v <- lift (unpack1 Big Fi b) ;; ret (Some v)
  else if size =? 5 then v <- read_int40_be ;; ret (Some v)
  else if size =? 8 then b <- read size ;; v <- lift (unpack1 Big Fl b) ;; ret (Some v)
  else ret None.

(** [unpack_uint16(n)]: [struct.unpack('<H', n[0:2])[0]] *)
Definition unpack_uint16 (n : bytes) : result Z := unpack1 Little FH (py_slice n 0 2).

(** [unpack_int24] and [unpack_int64]: under Python 3, [n[0]] is an int, so
    [struct.unpack('B', n[0])] raises TypeError and the [except TypeError]
    branch computes the value from the indexed ints (an out-of-range index
    raises IndexError on either branch). *)
Definition unpack_int24 (n : bytes) : result Z :=
  match py_index n 0, py_index n 1, py_index n 2 with
  | Ok a, Ok b, Ok c => Ok (a + Z.shiftl b 8 + Z.shiftl c 16)
  | _, _, _ => Err IndexError
  end.

Definition unpack_int64 (n : bytes) : result Z :=
  match py_index n 0, py_index n 1, py_index n 2, py_index n 3, py_index n 4 with
  | Ok a, Ok b, Ok c, Ok d, Ok e =>
    Ok (a + Z.shiftl b 8 + Z.shiftl c 16 + Z.shiftl d 24 + Z.shiftl e 32)
  | _, _, _, _, _ => Err IndexError
  end.

Definition read_length_coded_binary : M S (option Z) :=
  c <- (b <- read 1 ;; lift (byte2int b)) ;;
  if c =? NULL_COLUMN then ret None
  else if c <? UNSIGNED_CHAR_COLUMN then ret (Some c)
  else if c =? UNSIGNED_SHORT_COLUMN then
    b <- read UNSIGNED_SHORT_LENGTH ;; v <- lift (unpack_uint16 b) ;; ret (Some v)
  else if c =? UNSIGNED_INT24_COLUMN then
    b <- read UNSIGNED_INT24_LENGTH ;; v <- lift (unpack_int24 b) ;; ret (Some v)
  else if c =? UNSIGNED_INT64_COLUMN then
    b <- read UNSIGNED_INT64_LENGTH ;; v <- lift (unpack_int64 b) ;; ret (Some v)
  else ret None.

(** [read_variable_length_string]: the [while] loop runs at most [fuel]
    iterations. *)
Fixpoint varlen_loop (fuel : nat) (byte length bits_read : Z) : M S Z :=
  if Z.land byte 128 =? 0 then ret length
  else match fuel with
       | O => raise RecursionError
       | Datatypes.S f =>
         byte' <- (b <- read 1 ;; lift (byte2int b)) ;;
         varlen_loop f byte' (Z.lor length (Z.shiftl (Z.land byte' 127) bits_read))
                     (bits_read + 7)
       end.

Definition read_variable_length_string_fuel (fuel : nat) : M S bytes :=
  length <- varlen_loop fuel 128 0 0 ;; read length.

(** [struct.unpack(fmt, self.read(calcsize(fmt)))] as a list of ints. *)
Definition read_fields (e : endian) (fmt : list fmt_char) : M S (list Z) :=
  b <- read (Z.of_nat (calcsize fmt)) ;;
  match struct_unpack e fmt b with
  | Ok vs => ret (map as_int vs)
  | Err err => raise err
  end.

(** [a, b, c = struct.unpack("BBB", self.read(3))]; sign-extended at
    bit 23. *)
Definition read_int24 : M S Z :=
  vs <- read_fields Little [FB; FB; FB] ;;
  match vs with
  | [a; b; c] =>
    let res := Z.lor (Z.lor a (Z.shiftl b 8)) (Z.shiftl c 16) in
    ret (if res >=? 8388608 then res - 16777216 else res)
  | _ => raise StructError
  end.

Definition read_uint24 : M S Z :=
  vs <- read_fields Little [FB; FB; FB] ;;
  match vs with
  | [a; b; c] => ret (a + Z.shiftl b 8 + Z.shiftl c 16)
  | _ => raise StructError
  end.

Definition read_uint40 : M S Z :=
  vs <- read_fields Little [FB; FI] ;;
  match vs with
  | [a; b] => ret (a + Z.shiftl b 8)
  | _ => raise StructError
  end.

Definition read_uint48 : M S Z :=
  vs <- read_fields Little [FH; FH; FH] ;;
  match vs with
  | [a; b; c] => ret (a + Z.shiftl b 16 + Z.shiftl c 32)
  | _ => raise StructError
  end.

Definition read_uint56 : M S Z :=
  vs <- read_fields Little [FB; FH; FI] ;;
  match vs with
  | [a; b; c] => ret (a + Z.shiftl b 8 + Z.shiftl c 24)
  | _ => raise StructError
  end.

(** [read_uint_by_size]: [None] when no branch matches. *)
Definition read_uint_by_size (size : Z) : M S (option Z) :=
  if size =? 1 then v <- read_uint8 ;; ret (Some v)
  else if size =? 2 then v <- read_uint16 ;; ret (Some v)
  else if size =? 3 then v <- read_uint24 ;; ret (Some v)
  else if size =? 4 then v <- read_uint32 ;; ret (Some v)
  else if size =? 5 then v <- read_uint40 ;; ret (Some v)
  else if size =? 6 then v <- read_uint48 ;; ret (Some v)
  else if size =? 7 then v <- read_uint56 ;; ret (Some v)
  else if size =? 8 then v <- read_uint64 ;; ret (Some v)
  else ret None.

(** [length = self.read_uint_by_size(size); return self.read(length)];
    a [None] length makes [self.read] fail with TypeError
    ([self.point += None] or [int(None)]). *)
Definition read_length_coded_pascal_string (size : Z) : M S bytes :=
  length <- read_uint_by_size size ;;
  match length with
  | Some l => read l
  | None => raise TypeError
  end.

(** [unpack_int32], Python 3 path as for [unpack_int24]. *)
Definition unpack_int32 (n : bytes) : result Z :=
  match py_index n 0, py_index n 1, py_index n 2, py_index n 3 with
  | Ok a, Ok b, Ok c, Ok d => Ok (a + Z.shiftl b 8 + Z.shiftl c 16 + Z.shiftl d 24)
  | _, _, _, _ => Err IndexError
  end.

End StructMysqlMethods.

(** ** WrapperPayload: an in-memory payload and a position *)

Record WrapperPayload := mkPayload { payload : bytes; point : Z }.

(** [self.point += size; return self.payload[self.point-size:self.point]] *)
Definition payload_read (size : Z) : M WrapperPayload bytes :=
  fun s => let p := point s + size in
           (Ok (py_slice (payload s) (p - size) p), mkPayload (payload s) p).

Definition payload_advance (size : Z) : M WrapperPayload unit :=
  fun s => (Ok tt, mkPayload (payload s) (point s + size)).

Definition payload_rewind (size : Z) : M WrapperPayload unit :=
  fun s => (Ok tt, mkPayload (payload s) (point s - size)).

#[global] Instance WrapperPayload_StructMysql : StructMysql WrapperPayload :=
  { read := payload_read }.

Definition run_payload {A} (m : M WrapperPayload A) (bs : bytes) : result A :=
  fst (m (mkPayload bs 0)).

(** ** BinLogPacketWrapper (packet.py)

    The wrapped packet is any object with [read] and [advance] (pymysql's
    packet in production); it is a parameter of the model. *)
Class Packet (P : Type) := {
  packet_read : Z -> M P bytes;
  packet_advance : Z -> M P unit
}.

#[global] Instance WrapperPayload_Packet : Packet WrapperPayload :=
  { packet_read := payload_read; packet_advance := payload_advance }.

Record BinLogPacketWrapper (P : Type) := mkWrapper {
  read_bytes : Z;
  data_buffer : bytes;
  packet : P
}.
Arguments mkWrapper {P} read_bytes data_buffer packet.
Arguments read_bytes {P} _.
Arguments data_buffer {P} _.
Arguments packet {P} _.

Record EventHeader := mkHeader {
  timestamp : Z;
  event_type : Z;
  server_id : Z;
  event_size : Z;
  log_pos : Z;
  flags : Z
}.

Section Wrapper.
Context {P : Type} `{Packet P}.

Definition set_read_bytes (n : Z) (w : BinLogPacketWrapper P) :=
  mkWrapper n (data_buffer w) (packet w).
Definition set_data_buffer (b : bytes) (w : BinLogPacketWrapper P) :=
  mkWrapper (read_bytes w) b (packet w).

(** Run a method of the wrapped packet on [self.packet]. *)
Definition on_packet {A} (m : M P A) : M (BinLogPacketWrapper P) A :=
  fun w => let (r, p') := m (packet w) in
           (r, mkWrapper (read_bytes w) (data_buffer w) p').

Definition wrapper_read (size : Z) : M (BinLogPacketWrapper P) bytes :=
  w <- get ;;
  put (set_read_bytes (read_bytes w + size) w) ;;;
  w <- get ;;
  let buf := data_buffer w in
  if 0 <? py_len buf then
    let data := py_slice buf 0 size in
    put (set_data_buffer (py_slice buf size (py_len buf)) w) ;;;
    if py_len data =? size then ret data
    else rest <- on_packet (packet_read (size - py_len data)) ;;
         ret (data ++ rest)
  else on_packet (packet_read size).

(** [unread(data)]: [self.read_bytes -= len(data); self.data_buffer += data] *)
Definition unread (data : bytes) : M (BinLogPacketWrapper P) unit :=
  w <- get ;;
  put (mkWrapper (read_bytes w - py_len data) (data_buffer w ++ data) (packet w)).

Definition wrapper_advance (size : Z) : M (BinLogPacketWrapper P) unit :=
  w <- get ;;
  put (set_read_bytes (read_bytes w + size) w) ;;;
  w <- get ;;
  let buffer_len := py_len (data_buffer w) in
  if 0 <? buffer_len then
    put (set_data_buffer (py_slice (data_buffer w) size buffer_len) w) ;;;
    if size >? buffer_len then on_packet (packet_advance (size - buffer_len))
    else ret tt
  else on_packet (packet_advance size).

#[global] Instance BinLogPacketWrapper_StructMysql
  : StructMysql (BinLogPacketWrapper P) := { read := wrapper_read }.

(** Header decoding of [__init__]:
    [unpack = struct.unpack('<cIcIIIH', self.packet.read(20))], the six
    fields, and [event_size_without_header]. *)
Definition parse_header (use_checksum : bool) (raw : bytes)
  : result (EventHeader * Z) :=
  match struct_unpack Little [Fc; FI; Fc; FI; FI; FI; FH] raw with
  | Ok [_; ts; VBytes et; sid; esz; lp; fl] =>
    match byte2int et with
    | Ok et' =>
      let hdr := mkHeader (as_int ts) et' (as_int sid) (as_int esz)
                          (as_int lp) (as_int fl) in
      Ok (hdr, if use_checksum then as_int esz - 23 else as_int esz - 19)
    | Err e => Err e
    end
  | Ok _ => Err StructError
  | Err e => Err e
  end.

(** Modelled from the spec: the event classes (event.py, row_event.py) are
    not present. Per the spec they receive the cursor and the body length
    and drive the cursor through read, advance and push-back; a handler is
    modelled by the operations it performs and whether it reports a
    processed event ([_processed]). *)
Inductive cursor_op :=
| OpRead (n : Z)
| OpAdvance (n : Z)
| OpUnread (b : bytes).

Fixpoint run_ops (ops : list cursor_op) : M (BinLogPacketWrapper P) unit :=
  match ops with
  | [] => ret tt
  | OpRead n :: rest => wrapper_read n ;;; run_ops rest
  | OpAdvance n :: rest => wrapper_advance n ;;; run_ops rest
  | OpUnread b :: rest => unread b ;;; run_ops rest
  end.

(** [__init__]: [allowed t] stands for
    [self.__event_map.get(t, NotImplementedEvent) in allowed_events];
    [handler t body_len] for the operations of [event_class(self, ...)] and
    its [_processed] flag. The result is the wrapper, its header and whether
    [self.event] is set. *)
Definition BinLogPacketWrapper_init (use_checksum : bool)
  (allowed : Z -> bool) (handler : Z -> Z -> list cursor_op * bool)
  (from_packet : P) : result (BinLogPacketWrapper P * EventHeader * bool) :=
  let w0 := mkWrapper 0 [] from_packet in
  match on_packet (packet_read 20) w0 with
  | (Err e, _) => Err e
  | (Ok raw, w1) =>
    match parse_header use_checksum raw with
    | Err e => Err e
    | Ok (hdr, event_size_without_header) =>
      if negb (allowed (event_type hdr)) then Ok (w1, hdr, false)
      else
        let (ops, processed) := handler (event_type hdr) event_size_without_header in
        match run_ops ops w1 with
        | (Err e, _) => Err e
        | (Ok _, w2) => Ok (w2, hdr, processed)
        end
    end
  end.

End Wrapper.

(** ** Text formatting and [decimal.Decimal] *)

Local Open Scope string_scope.

Definition digit_char (d : Z) : ascii := ascii_of_nat (48 + Z.to_nat d).

Fixpoint digits_aux (fuel : nat) (n : Z) (acc : string) : string :=
  match fuel with
  | O => acc
  | Datatypes.S f =>
    if (n <? 10)%Z then String (digit_char n) acc
    else digits_aux f (n / 10) (String (digit_char (n mod 10)) acc)
  end.

(** Decimal digits of [n >= 0]. *)
Definition digits (n : Z) : string :=
  digits_aux (Datatypes.S (Z.to_nat (Z.log2 n))) n "".

(** [str(v)] for an int. *)
Definition py_str (v : Z) : string :=
  if (v <? 0)%Z then "-" ++ digits (- v) else digits v.

Fixpoint zeros (n : nat) : string :=
  match n with O => "" | Datatypes.S k => String "0" (zeros k) end.

(** ['%0*d' % (width, v)]: the sign, then the digits left-padded with
    zeros to a total width of at least [width]. *)
Definition format_0d (width v : Z) : string :=
  let sign := if (v <? 0)%Z then "-" else "" in
  let ds := digits (Z.abs v) in
  let pad := width - Z.of_nat (String.length sign) - Z.of_nat (String.length ds) in
  sign ++ zeros (Z.to_nat pad) ++ ds.

(** A [decimal.Decimal]: sign, coefficient and exponent. *)
Record Decimal := mkDecimal { dec_neg : bool; dec_coeff : Z; dec_exp : Z }.

Definition is_digit (c : ascii) : bool :=
  let n := nat_of_ascii c in (48 <=? n)%nat && (n <=? 57)%nat.

(** Digits with at most one '.'; returns the coefficient, the number of
    fractional digits and the number of digits. *)
Fixpoint parse_digits (s : string) (seen_dot : bool) (coeff nfrac ndig : Z)
  : option (Z * Z * Z) :=
  match s with
  | EmptyString => Some (coeff, nfrac, ndig)
  | String c rest =>
    if is_digit c then
      parse_digits rest seen_dot (10 * coeff + Z.of_nat (nat_of_ascii c - 48))
                   (if seen_dot then nfrac + 1 else nfrac) (ndig + 1)
    else if (Ascii.eqb c ".") && negb seen_dot then
      parse_digits rest true coeff nfrac ndig
    else None
  end.

(** [decimal.Decimal(s)] on strings made of a sign, digits and a point;
    anything else is a conversion syntax error (InvalidOperation). *)
Definition Decimal_of_string (s : string) : result Decimal :=
  let '(neg, body) :=
    match s with
    | String "-" r => (true, r)
    | String "+" r => (false, r)
    | _ => (false, s)
    end in
  match parse_digits body false 0 0 0 with
  | Some (coeff, nfrac, ndig) =>
    if (0 <? ndig)%Z then Ok (mkDecimal neg coeff (- nfrac)) else Err InvalidOperation
  | None => Err InvalidOperation
  end.

(** ** read_new_decimal (WrapperJson)

    The method only uses [self.read], [self.read_uint8],
    [self.read_int_be_by_size] and [self.unread]; it is written here for any
    reader [S] and the [unread] it finds on [self]. *)
Section NewDecimal.
Context {S : Type} `{StructMysql S}.
Variable self_unread : bytes -> M S unit.

Definition compressed_bytes : list Z := [0; 1; 1; 2; 2; 3; 3; 4; 4; 4].

(** [value = self.read_int_be_by_size(size) ^ mask]; [None ^ mask] would
    raise TypeError. *)
Definition read_be_xor (size mask : Z) : M S Z :=
  v <- read_int_be_by_size size ;;
  match v with Some v => ret (Z.lxor v mask) | None => raise TypeError end.

Fixpoint read_groups (n : nat) (mask : Z) (res : string) : M S string :=
  match n with
  | O => ret res
  | Datatypes.S k =>
    b <- read 4 ;; v <- lift (unpack1 Big Fi b) ;;
    read_groups k mask (res ++ format_0d 9 (Z.lxor v mask))
  end.

Definition read_new_decimal : M S Decimal :=
  precision <- read_uint8 ;;
  decimals <- read_uint8 ;;
  let integral := precision - decimals in
  let uncomp_integral := Z.quot integral 9 in
  let uncomp_fractional := Z.quot decimals 9 in
  let comp_integral := integral - uncomp_integral * 9 in
  let comp_fractional := decimals - uncomp_fractional * 9 in
  value <- read_uint8 ;;
  let '(res, mask) := if negb (Z.land value 128 =? 0)%Z then ("", 0) else ("-", -1) in
  self_unread [Z.lxor value 128] ;;;
  size <- lift (py_index compressed_bytes comp_integral) ;;
  res <- (if (size >? 0)%Z then v <- read_be_xor size mask ;; ret (res ++ py_str v)
          else ret res) ;;
  res <- read_groups (Z.to_nat uncomp_integral) mask res ;;
  let res := res ++ "." in
  res <- read_groups (Z.to_nat uncomp_fractional) mask res ;;
  size <- lift (py_index compressed_bytes comp_fractional) ;;
  res <- (if (size >? 0)%Z then v <- read_be_xor size mask ;;
                             ret (res ++ format_0d comp_fractional v)
          else ret res) ;;
  lift (Decimal_of_string res).

End NewDecimal.

(** ** WrapperJson (protocol.py)

    [WrapperJson] has the state of [WrapperPayload]. Neither class nor
    [StructMysql] defines [unread], so [self.unread] raises AttributeError. *)
Definition WrapperJson := WrapperPayload.

Definition WrapperJson_unread (data : bytes) : M WrapperJson unit :=
  raise (AttributeError "unread").

Definition WrapperJson_read_new_decimal : M WrapperJson Decimal :=
  read_new_decimal WrapperJson_unread.

(** The same method body bound to a cursor that has [unread]
    ([BinLogPacketWrapper]). *)
Definition BinLogPacketWrapper_read_new_decimal {P} `{Packet P}
  : M (BinLogPacketWrapper P) Decimal :=
  read_new_decimal unread.

Close Scope string_scope.

(** ** JSONB decoder (WrapperJson) *)

(** Modelled from the spec: the JSONB type tags come from the missing
    [constants] module; the spec names them without values, the values
    below are those of MySQL's binary JSON format. *)
Definition JSONB_TYPE_SMALL_OBJECT : Z := 0.
Definition JSONB_TYPE_LARGE_OBJECT : Z := 1.
Definition JSONB_TYPE_SMALL_ARRAY : Z := 2.
Definition JSONB_TYPE_LARGE_ARRAY : Z := 3.
Definition JSONB_TYPE_LITERAL : Z := 4.
Definition JSONB_TYPE_INT16 : Z := 5.
Definition JSONB_TYPE_UINT16 : Z := 6.
Definition JSONB_TYPE_INT32 : Z := 7.
Definition JSONB_TYPE_UINT32 : Z := 8.
Definition JSONB_TYPE_INT64 : Z := 9.
Definition JSONB_TYPE_UINT64 : Z := 10.
Definition JSONB_TYPE_DOUBLE : Z := 11.
Definition JSONB_TYPE_STRING : Z := 12.
Definition JSONB_TYPE_OPAQUE : Z := 15.
Definition JSONB_LITERAL_NULL : Z := 0.
Definition JSONB_LITERAL_TRUE : Z := 1.
Definition JSONB_LITERAL_FALSE : Z := 2.

#[local] Set Warnings "-register-all".

(** Python values produced by the decoder; a dict is an association list
    in insertion order, a float is kept as its 8 bytes. *)
Inductive jval :=
| JNone
| JBool (b : bool)
| JInt (z : Z)
| JDouble (raw : bytes)
| JStr (s : bytes)
| JDec (d : Decimal)
| JObj (kvs : list (bytes * jval))
| JArr (vs : list jval).

(** [out[key] = data] *)
Fixpoint dict_set (d : list (bytes * jval)) (k : bytes) (v : jval)
  : list (bytes * jval) :=
  match d with
  | [] => [(k, v)]
  | (k', v') :: rest =>
    if list_eq_dec Z.eq_dec k k' then (k', v) :: rest
    else (k', v') :: dict_set rest k v
  end.

Definition json_length_error : py_error :=
  ValueError "Json length is larger than packet length".

Definition type_not_handled (t : Z) : py_error :=
  ValueError ("Json type " ++ py_str t ++ " is not handled")%string.

(** A value slot: [(t, None, value)] for an inlined value,
    [(t, offset, None)] otherwise. *)
Inductive slot :=
| Inline (t : Z) (v : jval)
| Stored (t : Z) (offset : Z).

Definition slot_offset_is_None (x : slot) : bool :=
  match x with Inline _ _ => true | Stored _ _ => false end.

(** [[f() for _ in range(n)]] *)
Fixpoint repeat_m {S A} (n : nat) (f : M S A) : M S (list A) :=
  match n with
  | O => ret []
  | Datatypes.S k => x <- f ;; xs <- repeat_m k f ;; ret (x :: xs)
  end.

Fixpoint map_m {S A B} (f : A -> M S B) (l : list A) : M S (list B) :=
  match l with
  | [] => ret []
  | x :: rest => y <- f x ;; ys <- map_m f rest ;; ret (y :: ys)
  end.

Definition literal_value (value : Z) : M WrapperJson jval :=
  if value =? JSONB_LITERAL_NULL then ret JNone
  else if value =? JSONB_LITERAL_TRUE then ret (JBool true)
  else if value =? JSONB_LITERAL_FALSE then ret (JBool false)
  else raise (type_not_handled JSONB_TYPE_LITERAL).

Definition read_binary_json_type_inlined (t : Z) (large : bool)
  : M WrapperJson jval :=
  if t =? JSONB_TYPE_LITERAL then
    value <- (if large then read_uint32 else read_uint16) ;; literal_value value
  else if t =? JSONB_TYPE_INT16 then v <- read_int16 ;; ret (JInt v)
  else if t =? JSONB_TYPE_UINT16 then v <- read_uint16 ;; ret (JInt v)
  else if t =? JSONB_TYPE_INT32 then v <- read_int32 ;; ret (JInt v)
  else if t =? JSONB_TYPE_UINT32 then v <- read_uint32 ;; ret (JInt v)
  else if t =? JSONB_TYPE_INT64 then v <- read_int64 ;; ret (JInt v)
  else if t =? JSONB_TYPE_UINT64 then v <- read_uint64 ;; ret (JInt v)
  else raise (type_not_handled t).

Definition read_offset_or_inline (large : bool) : M WrapperJson slot :=
  t <- read_uint8 ;;
  if (t =? JSONB_TYPE_LITERAL) || (t =? JSONB_TYPE_INT16) || (t =? JSONB_TYPE_UINT16)
  then v <- read_binary_json_type_inlined t large ;; ret (Inline t v)
  else if large && ((t =? JSONB_TYPE_INT32) || (t =? JSONB_TYPE_UINT32))
  then v <- read_binary_json_type_inlined t large ;; ret (Inline t v)
  else if large then off <- read_uint32 ;; ret (Stored t off)
  else off <- read_uint16 ;; ret (Stored t off).

(** [elements] and [size] of a container header. *)
Definition read_count_size (large : bool) : M WrapperJson (Z * Z) :=
  if large then elements <- read_uint32 ;; size <- read_uint32 ;; ret (elements, size)
  else elements <- read_uint16 ;; size <- read_uint16 ;; ret (elements, size).

Section Containers.
(** [self.read_binary_json_type], called for stored (non-inlined) values. *)
Variable read_binary_json_type : Z -> Z -> M WrapperJson jval.

(** The loop [for i in range(elements)] over [keys[i]] and
    [value_type_inlined_lengths[i]] (both lists have [elements] items). *)
Fixpoint object_fields (length : Z) (keys : list bytes) (fields : list slot)
  (out : list (bytes * jval)) : M WrapperJson (list (bytes * jval)) :=
  match keys, fields with
  | [], [] => ret out
  | key :: keys', field :: fields' =>
    data <- match field with
            | Inline _ v => ret v
            | Stored t _ =>
              try_except (read_binary_json_type t length) (fun _ => ret JNone)
            end ;;
    object_fields length keys' fields' (dict_set out key data)
  | _, _ => raise IndexError
  end.

Definition read_key_offset_length (large : bool) : M WrapperJson (Z * Z) :=
  off <- (if large then read_uint32 else read_uint16) ;;
  klen <- read_uint16 ;;
  ret (off + 1, klen).

Definition read_binary_json_object (length : Z) (large : bool)
  : M WrapperJson jval :=
  es <- read_count_size large ;;
  let '(elements, size) := es in
  if size >? length then raise json_length_error
  else
  key_offset_lengths <- repeat_m (Z.to_nat elements) (read_key_offset_length large) ;;
  value_type_inlined_lengths <- repeat_m (Z.to_nat elements) (read_offset_or_inline large) ;;
  first <- lift (py_index key_offset_lengths 0) ;;
  s <- get ;;
  (if fst first >? point s then put (mkPayload (payload s) (fst first)) else ret tt) ;;;
  keys <- map_m (fun x => read (snd x)) key_offset_lengths ;;
  out <- object_fields length keys value_type_inlined_lengths [] ;;
  ret (JObj out).

(** [_read(x)] *)
Definition read_array_slot (length : Z) (x : slot) : M WrapperJson jval :=
  match x with
  | Inline _ v => ret v
  | Stored t _ => read_binary_json_type t length
  end.

Definition read_binary_json_array (length : Z) (large : bool)
  : M WrapperJson jval :=
  es <- read_count_size large ;;
  let '(elements, size) := es in
  if size >? length then raise json_length_error
  else
  values_type_offset_inline <- repeat_m (Z.to_nat elements) (read_offset_or_inline large) ;;
  vs <- map_m (read_array_slot length) values_type_offset_inline ;;
  ret (JArr vs).

End Containers.

Definition read_opaque (length : Z) : M WrapperJson jval :=
  t <- read_uint8 ;;
  if t =? 246 then d <- WrapperJson_read_new_decimal ;; ret (JDec d)
  else raise (ValueError ("Json Opaque type " ++ py_str t ++ " is not handled")%string).

Definition read_variable_length_string_json : M WrapperJson bytes :=
  s <- get ;;
  read_variable_length_string_fuel (Datatypes.S (2 * List.length (payload s))).

(** [read_binary_json_type]; each container level passes [length - 1]
    down and a container with a negative bound fails its size check, so
    [Z.to_nat length + 2] levels suffice ([read_binary_json_type] below). *)
Fixpoint read_binary_json_type_fuel (fuel : nat) (t length : Z)
  : M WrapperJson jval :=
  match fuel with
  | O => raise RecursionError
  | Datatypes.S f =>
    let large := (t =? JSONB_TYPE_LARGE_OBJECT) || (t =? JSONB_TYPE_LARGE_ARRAY) in
    if (t =? JSONB_TYPE_SMALL_OBJECT) || (t =? JSONB_TYPE_LARGE_OBJECT) then
      read_binary_json_object (read_binary_json_type_fuel f) (length - 1) large
    else if (t =? JSONB_TYPE_SMALL_ARRAY) || (t =? JSONB_TYPE_LARGE_ARRAY) then
      read_binary_json_array (read_binary_json_type_fuel f) (length - 1) large
    else if t =? JSONB_TYPE_STRING then
      s <- read_variable_length_string_json ;; ret (JStr s)
    else if t =? JSONB_TYPE_LITERAL then
      value <- read_uint8 ;; literal_value value
    else if t =? JSONB_TYPE_INT16 then v <- read_int16 ;; ret (JInt v)
    else if t =? JSONB_TYPE_UINT16 then v <- read_uint16 ;; ret (JInt v)
    else if t =? JSONB_TYPE_DOUBLE then
      b <- read 8 ;;
      (if Nat.eqb (List.length b) 8 then ret (JDouble b) else raise StructError)
    else if t =? JSONB_TYPE_INT32 then v <- read_int32 ;; ret (JInt v)
    else if t =? JSONB_TYPE_UINT32 then v <- read_uint32 ;; ret (JInt v)
    else if t =? JSONB_TYPE_INT64 then v <- read_int64 ;; ret (JInt v)
    else if t =? JSONB_TYPE_UINT64 then v <- read_uint64 ;; ret (JInt v)
    else if t =? JSONB_TYPE_OPAQUE then read_opaque length
    else raise (type_not_handled t)
  end.

Definition read_binary_json_type (t length : Z) : M WrapperJson jval :=
  read_binary_json_type_fuel (Z.to_nat length + 2) t length.

(** * Properties *)

(** ** Packed decimals *)

(** Packed encodings (precision 8, scale 4) of 1234.5678 and -1234.5678,
    preceded by the precision and scale bytes read by [read_new_decimal]. *)
Definition dec_pos_input : bytes := [8; 4; 132; 210; 22; 46].
Definition dec_neg_input : bytes := [8; 4; 123; 45; 233; 209].

(** Bound to a cursor that has [unread], the method body decodes both
    encodings exactly. *)
Lemma read_new_decimal_with_unread_examples :
  fst (BinLogPacketWrapper_read_new_decimal (mkWrapper 0 [] (mkPayload dec_pos_input 0)))
  = Ok (mkDecimal false 12345678 (-4)) /\
  fst (BinLogPacketWrapper_read_new_decimal (mkWrapper 0 [] (mkPayload dec_neg_input 0)))
  = Ok (mkDecimal true 12345678 (-4)).
Proof. split; vm_compute; reflexivity. Qed.

(** C1 (code_bug): [WrapperJson.read_new_decimal] never returns a decimal:
    once the precision, scale and sign bytes are read it calls
    [self.unread], which WrapperJson lacks; on the encodings of 1234.5678
    and -1234.5678 it raises AttributeError. *)
Theorem C1_WrapperJson_read_new_decimal_fails :
  (forall (s : WrapperJson) d, fst (WrapperJson_read_new_decimal s) <> Ok d) /\
  run_payload WrapperJson_read_new_decimal dec_pos_input = Err (AttributeError "unread") /\
  run_payload WrapperJson_read_new_decimal dec_neg_input = Err (AttributeError "unread").
Proof.
  split; [|split; vm_compute; reflexivity].
  intros s d.
  unfold WrapperJson_read_new_decimal, read_new_decimal, bind.
  destruct (@read_uint8 WrapperJson _ s) as [[p|e] s1]; [|discriminate].
  destruct (@read_uint8 WrapperJson _ s1) as [[q|e] s2]; [|discriminate].
  destruct (@read_uint8 WrapperJson _ s2) as [[v|e] s3]; [|discriminate].
  destruct (negb (Z.land v 128 =? 0)); simpl; discriminate.
Qed.

(** ** Length-coded integers *)

(** C2 (code_bug): with prefix 0xFE the following 8 bytes encode
    2^40 little-endian, but [read_length_coded_binary] returns 0:
    [unpack_int64] adds up only the first 5 of the 8 bytes it is given. *)
Theorem C2_read_length_coded_binary_int64_prefix :
  run_payload read_length_coded_binary [254; 0; 0; 0; 0; 0; 1; 0; 0] = Ok (Some 0) /\
  le_val [0; 0; 0; 0; 0; 1; 0; 0] = 2 ^ 40.
Proof. split; vm_compute; reflexivity. Qed.

(** The other prefixes behave as the table says: 0xFB is no value, a
    smaller prefix is its own value, 0xFC and 0xFD take 2 and 3 bytes. *)
Lemma read_length_coded_binary_short_prefixes (c b0 b1 b2 : Z) :
  0 <= c < 251 ->
  run_payload read_length_coded_binary [251] = Ok None /\
  run_payload read_length_coded_binary [c] = Ok (Some c) /\
  run_payload read_length_coded_binary [252; b0; b1] = Ok (Some (b0 + 256 * b1)) /\
  run_payload read_length_coded_binary [253; b0; b1; b2]
    = Ok (Some (b0 + 256 * b1 + 65536 * b2)).
Proof.
  intros Hc. refine (conj _ (conj _ (conj _ _))).
  - vm_compute. reflexivity.
  - unfold run_payload, read_length_coded_binary, bind, ret, lift; simpl.
    unfold be_val, NULL_COLUMN, UNSIGNED_CHAR_COLUMN; simpl.
    rewrite Z.add_0_r.
    destruct (Z.eqb_spec c 251); [lia|].
    destruct (Z.ltb_spec c 251); [reflexivity|lia].
  - transitivity (@Ok (option Z) (Some (b0 + 256 * (b1 + 256 * 0)))); [reflexivity|].
    rewrite Z.add_0_r. reflexivity.
  - transitivity (@Ok (option Z) (Some (b0 + Z.shiftl b1 8 + Z.shiftl b2 16)));
      [reflexivity|].
    rewrite !Z.shiftl_mul_pow2 by lia. f_equal; f_equal; ring.
Qed.

(** ** Event header *)

(** The 20 header bytes of the spec's example: timestamp 1600000000,
    type 2, server id 1, event size 42, log position 1000, flags 0. *)
Definition header_example : bytes :=
  [0; 0; 16; 94; 95; 2; 1; 0; 0; 0; 42; 0; 0; 0; 232; 3; 0; 0; 0; 0].

(** C3: the fields of [struct.unpack('<cIcIIIH', ...)] are the
    little-endian values of bytes 1-4, 5, 6-9, 10-13, 14-17 and 18-19 (byte
    0 is dropped), and the body length is the event size minus 23 with a
    checksum, minus 19 without. *)
Theorem C3_parse_header (use_checksum : bool)
  (r t0 t1 t2 t3 ty s0 s1 s2 s3 e0 e1 e2 e3 l0 l1 l2 l3 f0 f1 : Z) :
  let esz := e0 + 2^8 * e1 + 2^16 * e2 + 2^24 * e3 in
  parse_header use_checksum
    [r; t0; t1; t2; t3; ty; s0; s1; s2; s3; e0; e1; e2; e3; l0; l1; l2; l3; f0; f1]
  = Ok (mkHeader (t0 + 2^8 * t1 + 2^16 * t2 + 2^24 * t3) ty
                 (s0 + 2^8 * s1 + 2^16 * s2 + 2^24 * s3) esz
                 (l0 + 2^8 * l1 + 2^16 * l2 + 2^24 * l3) (f0 + 2^8 * f1),
        if use_checksum then esz - 23 else esz - 19) /\
  parse_header false header_example = Ok (mkHeader 1600000000 2 1 42 1000 0, 23) /\
  parse_header true header_example = Ok (mkHeader 1600000000 2 1 42 1000 0, 19).
Proof.
  intros esz. split; [|split; vm_compute; reflexivity].
  transitivity (@Ok (EventHeader * Z)
    (mkHeader (le_val [t0; t1; t2; t3]) (le_val [ty]) (le_val [s0; s1; s2; s3])
              (le_val [e0; e1; e2; e3]) (le_val [l0; l1; l2; l3]) (le_val [f0; f1]),
     if use_checksum then le_val [e0; e1; e2; e3] - 23
     else le_val [e0; e1; e2; e3] - 19));
    [destruct use_checksum; reflexivity|].
  unfold esz; cbn [le_val].
  f_equal; f_equal; [f_equal; ring|destruct use_checksum; ring].
Qed.

(** ** Big-endian integers *)

(** C9 (code_bug): width 8 uses format '>l', which is 4 bytes, so
    reading 8 bytes raises struct.error; width 5 ([read_int40_be]) returns
    the unsigned value: the bytes FF FF FF FF FF give 2^40 - 1, whose
    signed reading is -1. Widths 1-4 are signed. *)
Theorem C9_read_int_be_by_size_widths :
  run_payload (read_int_be_by_size 8) [255; 255; 255; 255; 255; 255; 255; 254]
    = Err StructError /\
  run_payload (read_int_be_by_size 5) [255; 255; 255; 255; 255]
    = Ok (Some (2 ^ 40 - 1)) /\
  to_signed 5 (be_val [255; 255; 255; 255; 255]) = -1 /\
  run_payload (read_int_be_by_size 1) [255] = Ok (Some (-1)) /\
  run_payload (read_int_be_by_size 2) [255; 254] = Ok (Some (-2)) /\
  run_payload (read_int_be_by_size 3) [255; 255; 253] = Ok (Some (-3)) /\
  run_payload (read_int_be_by_size 4) [255; 255; 255; 252] = Ok (Some (-4)).
Proof. repeat split; vm_compute; reflexivity. Qed.

(** ** Slices *)

Lemma firstn_min_length {A} (k : nat) (l : list A) :
  firstn (Nat.min k (List.length l)) l = firstn k l.
Proof.
  destruct (Nat.le_ge_cases k (List.length l)) as [Hk|Hk].
  - now rewrite Nat.min_l.
  - rewrite Nat.min_r by exact Hk.
    rewrite (firstn_all2 (n := k)) by exact Hk.
    apply firstn_all.
Qed.

(** [l[a:b]] with [0 <= a <= b] is [b - a] items from index [a]. *)
Lemma py_slice_nonneg {A} (l : list A) (a b : Z) :
  0 <= a <= b ->
  py_slice l a b = firstn (Z.to_nat (b - a)) (skipn (Z.to_nat a) l).
Proof.
  intros Hab. unfold py_slice, slice_bound, py_len.
  destruct (Z.ltb_spec a 0); [lia|].
  destruct (Z.ltb_spec b 0); [lia|].
  set (n := Z.of_nat (List.length l)).
  destruct (Z.le_gt_cases n a) as [Hna|Hna].
  - rewrite (Z.min_r a n), (Z.min_r b n) by lia.
    replace (n - n) with 0 by ring.
    rewrite (skipn_all2 (n := Z.to_nat a)) by (unfold n in Hna; lia).
    now rewrite firstn_nil.
  - rewrite (Z.min_l a n) by lia.
    symmetry. rewrite <- firstn_min_length, length_skipn.
    f_equal. unfold n in *. lia.
Qed.

Lemma py_slice_all {A} (l : list A) : py_slice l 0 (py_len l) = l.
Proof.
  rewrite py_slice_nonneg by (unfold py_len; lia).
  unfold py_len. rewrite Z.sub_0_r, Nat2Z.id. apply firstn_all.
Qed.

Lemma py_slice_from_len {A} (l : list A) : py_slice l (py_len l) (py_len l) = [].
Proof.
  rewrite py_slice_nonneg by (unfold py_len; lia).
  now rewrite Z.sub_diag.
Qed.

Lemma py_slice_prefix {A} (l : list A) (n : Z) :
  0 <= n -> py_slice l 0 n = firstn (Z.to_nat n) l.
Proof.
  intros Hn. rewrite py_slice_nonneg by lia. rewrite Z.sub_0_r. reflexivity.
Qed.

Lemma py_slice_suffix {A} (l : list A) (n : Z) :
  0 <= n -> py_slice l n (py_len l) = skipn (Z.to_nat n) l.
Proof.
  intros Hn. destruct (Z.le_gt_cases n (py_len l)) as [Hle|Hgt].
  - rewrite py_slice_nonneg by (unfold py_len in *; lia).
    apply firstn_all2. rewrite length_skipn. unfold py_len. lia.
  - unfold py_slice, slice_bound. cbv zeta.
    destruct (Z.ltb_spec n 0); [lia|].
    destruct (Z.ltb_spec (py_len l) 0); [unfold py_len in *; lia|].
    rewrite (Z.min_r n) by lia. rewrite Z.min_id, Z.sub_diag.
    rewrite (skipn_all2 (n := Z.to_nat n)) by (unfold py_len in Hgt; lia). reflexivity.
Qed.

(** ** The push-back buffer and the bytes-read counter *)

Section WrapperProperties.
Context {P : Type} `{Packet P}.

Lemma wrapper_read_empty_buffer (n : Z) (w : BinLogPacketWrapper P) :
  data_buffer w = [] ->
  wrapper_read n w =
  (fst (packet_read n (packet w)),
   mkWrapper (read_bytes w + n) [] (snd (packet_read n (packet w)))).
Proof.
  intros Hb. destruct w as [rb buf p]; simpl in Hb; subst buf.
  unfold wrapper_read, bind, get, put, on_packet; simpl.
  destruct (packet_read n p); reflexivity.
Qed.

(** Reading back a whole non-empty push-back from an empty buffer. *)
Lemma unread_then_read (n : Z) (p : P) (b : bytes) :
  b <> [] ->
  (unread b ;;; wrapper_read (py_len b)) (mkWrapper n [] p) = (Ok b, mkWrapper n [] p).
Proof.
  intros Hb.
  unfold unread, wrapper_read, bind, get, put, set_read_bytes, set_data_buffer,
    ret; simpl.
  replace (0 <? py_len b) with true
    by (symmetry; apply Z.ltb_lt; destruct b; [congruence|unfold py_len; simpl; lia]).
  rewrite py_slice_all, py_slice_from_len, Z.eqb_refl.
  now rewrite Z.sub_add.
Qed.

(** Effect of one cursor operation on the counter. *)
Definition op_delta (op : cursor_op) : Z :=
  match op with
  | OpRead n => n
  | OpAdvance n => n
  | OpUnread b => - py_len b
  end.

Definition ops_net (ops : list cursor_op) : Z :=
  fold_right (fun op acc => op_delta op + acc) 0 ops.

Lemma on_packet_read_bytes {A} (m : M P A) (w : BinLogPacketWrapper P) :
  read_bytes (snd (on_packet m w)) = read_bytes w.
Proof. unfold on_packet. destruct (m (packet w)); reflexivity. Qed.

Lemma wrapper_read_counter (n : Z) (w : BinLogPacketWrapper P) :
  read_bytes (snd (wrapper_read n w)) = read_bytes w + n.
Proof.
  destruct w as [rb buf p].
  unfold wrapper_read, bind, get, put, set_read_bytes, set_data_buffer, on_packet, ret; simpl.
  destruct (0 <? py_len buf); simpl.
  - destruct (py_len (py_slice buf 0 n) =? n); simpl; [reflexivity|].
    destruct (packet_read (n - py_len (py_slice buf 0 n)) p) as [[r|e] p']; reflexivity.
  - destruct (packet_read n p) as [r p']; reflexivity.
Qed.

Lemma wrapper_advance_counter (n : Z) (w : BinLogPacketWrapper P) :
  read_bytes (snd (wrapper_advance n w)) = read_bytes w + n.
Proof.
  destruct w as [rb buf p].
  unfold wrapper_advance, bind, get, put, set_read_bytes, set_data_buffer, on_packet, ret; simpl.
  destruct (0 <? py_len buf); simpl.
  - destruct (n >? py_len buf); simpl; [|reflexivity].
    destruct (packet_advance (n - py_len buf) p); reflexivity.
  - destruct (packet_advance n p); reflexivity.
Qed.

Lemma unread_counter (b : bytes) (w : BinLogPacketWrapper P) :
  read_bytes (snd (unread b w)) = read_bytes w - py_len b.
Proof. reflexivity. Qed.

Lemma bind_Ok_inv {S A B} (m : M S A) (k : A -> M S B) s b s' :
  bind m k s = (Ok b, s') ->
  exists a s1, m s = (Ok a, s1) /\ k a s1 = (Ok b, s').
Proof.
  unfold bind. destruct (m s) as [[a|e] s1]; intros Hk; [|discriminate].
  eauto.
Qed.

Lemma run_ops_counter (ops : list cursor_op) (w w' : BinLogPacketWrapper P) :
  fst (run_ops ops w) = Ok tt -> snd (run_ops ops w) = w' ->
  read_bytes w' = read_bytes w + ops_net ops.
Proof.
  revert w. induction ops as [|op ops IH]; intros w Hok Hw.
  - simpl in *. subst. simpl. ring.
  - destruct (run_ops (op :: ops) w) as [r w2] eqn:Hrun. simpl in Hok, Hw. subst r w'.
    assert (Hstep : forall (A : Type) (m : M (BinLogPacketWrapper P) A),
               read_bytes (snd (m w)) = read_bytes w + op_delta op ->
               bind m (fun _ => run_ops ops) w = (Ok tt, w2) ->
               read_bytes w2 = read_bytes w + ops_net (op :: ops)).
    { intros A m Hm Hb. apply bind_Ok_inv in Hb as [a [w1 [Hm1 Hr]]].
      rewrite Hm1 in Hm. simpl in Hm.
      rewrite (IH w1) by (rewrite Hr; reflexivity).
      rewrite Hm. simpl. ring. }
    destruct op as [n|n|b]; simpl in Hrun; (eapply Hstep; [|exact Hrun]).
    + apply wrapper_read_counter.
    + apply wrapper_advance_counter.
    + apply unread_counter.
Qed.

End WrapperProperties.

Section CursorClaims.
Context {P : Type} `{Packet P}.

(** C4 (code bug): [unread(b)] does [self.data_buffer += b], so the
    pushed-back bytes queue behind any bytes still waiting in the override
    buffer. With a non-empty buffer [d], the next [read(len(b))] returns the
    first [len(b)] bytes of [d ++ b], not [b]. Two bytes read one at a time
    and pushed back in reverse order of reading come back swapped. *)
Theorem C4_unread_queues_behind_buffer (n : Z) (p : P) :
  (forall d b : bytes, d <> [] ->
     (unread b ;;; wrapper_read (py_len b)) (mkWrapper n d p)
     = (Ok (firstn (List.length b) (d ++ b)),
        mkWrapper n (skipn (List.length b) (d ++ b)) p)) /\
  (forall (x y : Z) (p1 p2 : P),
     packet_read 1 p = (Ok [x], p1) -> packet_read 1 p1 = (Ok [y], p2) ->
     (a <- wrapper_read 1 ;; c <- wrapper_read 1 ;;
      unread c ;;; unread a ;;; wrapper_read 2) (mkWrapper n [] p)
     = (Ok [y; x], mkWrapper (n + 2) [] p2)).
Proof.
  split.
  - intros d b Hd.
    unfold unread, wrapper_read, bind, get, put, set_read_bytes,
      set_data_buffer, ret; simpl.
    replace (0 <? py_len (d ++ b)) with true
      by (symmetry; apply Z.ltb_lt; destruct d; [congruence|];
          unfold py_len; simpl; lia).
    assert (Hb : 0 <= py_len b) by (unfold py_len; lia).
    rewrite py_slice_prefix, py_slice_suffix by exact Hb.
    replace (Z.to_nat (py_len b)) with (List.length b) by (unfold py_len; lia).
    rewrite Z.sub_add.
    replace (py_len (firstn (List.length b) (d ++ b)) =? py_len b) with true.
    + reflexivity.
    + symmetry; apply Z.eqb_eq. unfold py_len.
      rewrite length_firstn, length_app. f_equal. lia.
  - intros x y p1 p2 H1 H2.
    unfold bind at 1. rewrite wrapper_read_empty_buffer by reflexivity.
    simpl. rewrite H1. simpl.
    unfold bind at 1. rewrite wrapper_read_empty_buffer by reflexivity.
    simpl. rewrite H2. simpl.
    unfold unread, wrapper_read, bind, get, put, set_read_bytes,
      set_data_buffer, ret; simpl.
    vm_compute (py_slice _ _ _). simpl.
    unfold py_len; simpl. do 2 f_equal; lia.
Qed.

(** C5 (corrected): every [read(n)] and [advance(n)] adds [n] to
    [read_bytes] and every [unread] of [k] bytes subtracts [k]; [__init__]
    reads the 20 header bytes from the wrapped packet directly, so once the
    wrapper is built [read_bytes] counts only the handler's operations (0
    for a filtered event). *)
Theorem C5_read_bytes_counter :
  (forall (k : Z) (w : BinLogPacketWrapper P),
     read_bytes (snd (wrapper_read k w)) = read_bytes w + k) /\
  (forall (k : Z) (w : BinLogPacketWrapper P),
     read_bytes (snd (wrapper_advance k w)) = read_bytes w + k) /\
  (forall (b : bytes) (w : BinLogPacketWrapper P),
     read_bytes (snd (unread b w)) = read_bytes w - py_len b) /\
  (forall use_checksum allowed handler (pkt : P) w hdr ev,
     BinLogPacketWrapper_init use_checksum allowed handler pkt = Ok (w, hdr, ev) ->
     exists raw body_len,
       fst (packet_read 20 pkt) = Ok raw /\
       parse_header use_checksum raw = Ok (hdr, body_len) /\
       read_bytes w = if allowed (event_type hdr)
                      then ops_net (fst (handler (event_type hdr) body_len)) else 0).
Proof.
  refine (conj wrapper_read_counter (conj wrapper_advance_counter
            (conj unread_counter _))).
  intros uc allowed handler pkt w hdr ev Hinit.
  destruct (packet_read 20 pkt) as [[raw|e] p1] eqn:Hread;
    unfold BinLogPacketWrapper_init, on_packet in Hinit; simpl in Hinit;
    rewrite Hread in Hinit; [|discriminate].
  destruct (parse_header uc raw) as [[hdr' bl]|e] eqn:Hparse; [|discriminate].
  exists raw, bl.
  destruct (allowed (event_type hdr')) eqn:Hal; simpl in Hinit.
  - destruct (handler (event_type hdr') bl) as [ops processed] eqn:Hh.
    destruct (run_ops ops (mkWrapper 0 [] p1)) as [[u|e] w2] eqn:Hrun; [|discriminate].
    inversion Hinit; subst. rewrite Hal, Hh. simpl.
    split; [try rewrite Hread; reflexivity|split; [exact Hparse|]].
    destruct u.
    rewrite (run_ops_counter ops (mkWrapper 0 [] p1) w) by (rewrite Hrun; reflexivity).
    simpl. ring.
  - inversion Hinit; subst. rewrite Hal.
    split; [try rewrite Hread; reflexivity|split; [exact Hparse|reflexivity]].
Qed.

(** C6 (corrected): [read] never raises for lack of data. From position
    [p >= 0] the payload cursor's [read(n)] returns [payload[p:p+n]] (fewer
    than [n] bytes when fewer remain) and moves to [p + n]; with an empty
    override buffer [BinLogPacketWrapper.read] returns what the wrapped
    packet's [read] returns. *)
Theorem C6_read_no_truncation_check :
  (forall (bs : bytes) (p k : Z), 0 <= p -> 0 <= k ->
     payload_read k (mkPayload bs p)
     = (Ok (firstn (Z.to_nat k) (skipn (Z.to_nat p) bs)), mkPayload bs (p + k))) /\
  (forall (k : Z) (w : BinLogPacketWrapper P), data_buffer w = [] ->
     wrapper_read k w =
     (fst (packet_read k (packet w)),
      mkWrapper (read_bytes w + k) [] (snd (packet_read k (packet w))))).
Proof.
  split; [|exact wrapper_read_empty_buffer].
  intros bs p k Hp Hk. unfold payload_read. simpl.
  rewrite py_slice_nonneg by lia.
  do 4 f_equal; lia.
Qed.

End CursorClaims.

Lemma C4_witness :
  (unread [2] ;;; wrapper_read 1) (mkWrapper 0 [1] (mkPayload [] 0))
    = (Ok [1], mkWrapper 0 [2] (mkPayload [] 0)) /\
  (a <- wrapper_read 1 ;; c <- wrapper_read 1 ;;
   unread c ;;; unread a ;;; wrapper_read 2)
    (mkWrapper 0 [] (mkPayload [5; 6] 0))
  = (Ok [6; 5], mkWrapper 2 [] (mkPayload [5; 6] 2)).
Proof.
  split.
  - apply (proj1 (C4_unread_queues_behind_buffer 0 (mkPayload [] 0)) [1] [2]).
    discriminate.
  - refine (proj2 (C4_unread_queues_behind_buffer 0 (mkPayload [5; 6] 0))
              5 6 (mkPayload [5; 6] 1) (mkPayload [5; 6] 2) _ _);
      reflexivity.
Defined.

(** The spec's header with a filtered event type: the 20 header bytes
    were delivered, the counter is 0. *)
Lemma C5_counterexample :
  match BinLogPacketWrapper_init false (fun _ => false) (fun _ _ => ([], true))
          (mkPayload header_example 0) with
  | Ok (w, _, _) => read_bytes w = 0 /\ read_bytes w <> 20
  | Err _ => False
  end.
Proof. vm_compute. split; [reflexivity|discriminate]. Qed.

Lemma C5_witness :
  BinLogPacketWrapper_init false (fun _ => true)
    (fun _ _ => ([OpRead 20; OpAdvance 5; OpUnread [0; 0]], true))
    (mkPayload header_example 0)
  = Ok (mkWrapper 23 [0; 0] (mkPayload header_example 45),
        mkHeader 1600000000 2 1 42 1000 0, true) /\
  exists raw body_len,
    fst (packet_read 20 (mkPayload header_example 0)) = Ok raw /\
    parse_header false raw = Ok (mkHeader 1600000000 2 1 42 1000 0, body_len) /\
    read_bytes (mkWrapper 23 [0; 0] (mkPayload header_example 45))
    = ops_net [OpRead 20; OpAdvance 5; OpUnread [0; 0]].
Proof.
  assert (Hinit : BinLogPacketWrapper_init false (fun _ => true)
    (fun _ _ => ([OpRead 20; OpAdvance 5; OpUnread [0; 0]], true))
    (mkPayload header_example 0)
  = Ok (mkWrapper 23 [0; 0] (mkPayload header_example 45),
        mkHeader 1600000000 2 1 42 1000 0, true)) by (vm_compute; reflexivity).
  split; [exact Hinit|].
  exact (proj2 (proj2 (proj2 (@C5_read_bytes_counter WrapperPayload _)))
           _ _ _ _ _ _ _ Hinit).
Defined.

Lemma C6_counterexample :
  payload_read 5 (mkPayload [1; 2] 0) = (Ok [1; 2], mkPayload [1; 2] 5) /\
  (List.length [1; 2] < 5)%nat.
Proof. split; [vm_compute; reflexivity|simpl; lia]. Qed.

Lemma C6_witness :
  payload_read 5 (mkPayload [1; 2] 0) = (Ok [1; 2], mkPayload [1; 2] 5).
Proof.
  apply (proj1 (@C6_read_no_truncation_check WrapperPayload _) [1; 2] 0 5); lia.
Defined.

(** ** JSONB containers *)

Lemma read_unpack_state (e : endian) (c : fmt_char) (s : WrapperPayload) :
  snd (read_unpack e c s) = mkPayload (payload s) (point s + Z.of_nat (fmt_size c)).
Proof.
  unfold read_unpack, bind, lift, ret, raise. simpl.
  destruct (unpack1 e c _); reflexivity.
Qed.

(** A container header that was read moved the position by 4 bytes (small)
    or 8 bytes (large) and nothing else. *)
Lemma read_count_size_state (large : bool) (s s1 : WrapperJson) (x : Z * Z) :
  read_count_size large s = (Ok x, s1) ->
  s1 = mkPayload (payload s) (point s + if large then 8 else 4).
Proof.
  intros Hr.
  assert (Hst : forall c (s0 s0' : WrapperPayload) (v : Z),
             read_unpack Little c s0 = (Ok v, s0') ->
             s0' = mkPayload (payload s0) (point s0 + Z.of_nat (fmt_size c))).
  { intros c s0 s0' v Hc. rewrite <- (read_unpack_state Little c s0), Hc. reflexivity. }
  destruct large; unfold read_count_size in Hr;
    apply bind_Ok_inv in Hr as [a [sa [Ha Hr]]];
    apply bind_Ok_inv in Hr as [b [sb [Hb Hr]]];
    unfold ret in Hr; inversion Hr; subst;
    apply Hst in Ha; apply Hst in Hb; subst; simpl; f_equal; lia.
Qed.

(** C7: when the declared byte size exceeds the bound, object and array
    decode raise [ValueError('Json length is larger than packet length')]
    (the spec's MalformedJsonError) right after the element-count and size
    fields: the returned state is the one after those two fields, and the
    nested decoder [rec] is never called. *)
Theorem C7_size_bound_checked_first (rec : Z -> Z -> M WrapperJson jval)
  (length : Z) (large : bool) (s s1 : WrapperJson) (elements size : Z) :
  read_count_size large s = (Ok (elements, size), s1) ->
  size > length ->
  read_binary_json_object rec length large s = (Err json_length_error, s1) /\
  read_binary_json_array rec length large s = (Err json_length_error, s1) /\
  s1 = mkPayload (payload s) (point s + if large then 8 else 4).
Proof.
  intros Hhdr Hsize.
  assert (Hgt : (size >? length) = true) by (apply Z.gtb_lt; lia).
  refine (conj _ (conj _ (read_count_size_state large s s1 _ Hhdr))).
  - unfold read_binary_json_object, bind at 1. rewrite Hhdr. simpl.
    rewrite Hgt. reflexivity.
  - unfold read_binary_json_array, bind at 1. rewrite Hhdr. simpl.
    rewrite Hgt. reflexivity.
Qed.

Lemma C7_witness :
  read_binary_json_object (read_binary_json_type_fuel 3) 10 false (mkPayload [1; 0; 50; 0] 0)
    = (Err json_length_error, mkPayload [1; 0; 50; 0] 4) /\
  read_binary_json_array (read_binary_json_type_fuel 3) 10 false (mkPayload [1; 0; 50; 0] 0)
    = (Err json_length_error, mkPayload [1; 0; 50; 0] 4) /\
  mkPayload [1; 0; 50; 0] 4 = mkPayload [1; 0; 50; 0] (0 + 4).
Proof.
  apply (C7_size_bound_checked_first (read_binary_json_type_fuel 3) 10 false
           (mkPayload [1; 0; 50; 0] 0) (mkPayload [1; 0; 50; 0] 4) 1 50).
  - reflexivity.
  - lia.
Defined.

Lemma map_m_app {S A B} (f : A -> M S B) (pre post : list A) (s s1 : S) (vs : list B) :
  map_m f pre s = (Ok vs, s1) ->
  map_m f (pre ++ post) s =
  match map_m f post s1 with
  | (Ok ws, s2) => (Ok (vs ++ ws), s2)
  | (Err e, s2) => (Err e, s2)
  end.
Proof.
  revert s vs. induction pre as [|x pre IH]; intros s vs Hpre.
  - simpl in Hpre. unfold ret in Hpre. inversion Hpre; subst. simpl.
    unfold bind, ret. destruct (map_m f post s1) as [[ws|e] s2]; reflexivity.
  - simpl in Hpre |- *. apply bind_Ok_inv in Hpre as [y [sy [Hy Hpre]]].
    apply bind_Ok_inv in Hpre as [ys [sys [Hys Hr]]].
    unfold ret in Hr. inversion Hr; subst.
    unfold bind at 1. rewrite Hy.
    unfold bind at 1. rewrite (IH _ _ Hys).
    destruct (map_m f post s1) as [[ws|e] s2]; reflexivity.
Qed.

Lemma object_fields_total (rec : Z -> Z -> M WrapperJson jval) (length : Z) :
  forall keys fields out s, List.length keys = List.length fields ->
  exists out' s', object_fields rec length keys fields out s = (Ok out', s').
Proof.
  induction keys as [|k keys IH]; intros [|f fields] out s Hlen;
    simpl in Hlen; try discriminate.
  - eexists; eexists; reflexivity.
  - simpl. destruct f as [t v|t off].
    + unfold bind at 1, ret at 1. apply IH. lia.
    + unfold bind at 1, try_except.
      destruct (rec t length s) as [[v|e] s']; apply IH; lia.
Qed.

(** C8: in object decode, a stored field whose nested decode raises gets
    the value None and the loop goes on with the next field from the state
    the failure left; the fields loop never raises. In array decode, the
    first failing stored element's error is the result of the slot loop
    (whatever comes after it) and of the whole array decode. *)
Theorem C8_object_isolates_array_propagates
  (rec : Z -> Z -> M WrapperJson jval) (length : Z) :
  (forall key keys t off fields out s e s',
     rec t length s = (Err e, s') ->
     object_fields rec length (key :: keys) (Stored t off :: fields) out s
     = object_fields rec length keys fields (dict_set out key JNone) s') /\
  (forall keys fields out s, List.length keys = List.length fields ->
     exists out' s', object_fields rec length keys fields out s = (Ok out', s')) /\
  (forall pre t off post s vs s1 e s2,
     map_m (read_array_slot rec length) pre s = (Ok vs, s1) ->
     rec t length s1 = (Err e, s2) ->
     map_m (read_array_slot rec length) (pre ++ Stored t off :: post) s = (Err e, s2)) /\
  (forall large s s1 elements size slots s2 e s3,
     read_count_size large s = (Ok (elements, size), s1) -> size <= length ->
     repeat_m (Z.to_nat elements) (read_offset_or_inline large) s1 = (Ok slots, s2) ->
     map_m (read_array_slot rec length) slots s2 = (Err e, s3) ->
     read_binary_json_array rec length large s = (Err e, s3)).
Proof.
  refine (conj _ (conj (object_fields_total rec length) (conj _ _))).
  - intros key keys t off fields out s e s' Hrec.
    simpl. unfold bind at 1, try_except. rewrite Hrec. reflexivity.
  - intros pre t off post s vs s1 e s2 Hpre Hrec.
    rewrite (map_m_app _ pre _ s s1 vs Hpre). simpl.
    unfold bind at 1. rewrite Hrec. reflexivity.
  - intros large s s1 elements size slots s2 e s3 Hhdr Hsize Hslots Hmap.
    assert (Hle : (size >? length) = false) by (rewrite Z.gtb_ltb; apply Z.ltb_ge; lia).
    unfold read_binary_json_array, bind at 1. rewrite Hhdr. simpl. rewrite Hle.
    unfold bind at 1. rewrite Hslots.
    unfold bind at 1. rewrite Hmap. reflexivity.
Qed.

(** A nested decoder that always fails. *)
Definition failing_rec (t length : Z) : M WrapperJson jval := raise StructError.

Lemma C8_witness :
  object_fields failing_rec 10 [[97]; [98]] [Stored 12 0; Inline 5 (JInt 1)] []
    (mkPayload [] 0)
  = object_fields failing_rec 10 [[98]] [Inline 5 (JInt 1)] [([97], JNone)]
      (mkPayload [] 0) /\
  map_m (read_array_slot failing_rec 10) ([Inline 5 (JInt 1)] ++ Stored 12 0 :: [])
    (mkPayload [] 0)
  = (Err StructError, mkPayload [] 0).
Proof.
  split.
  - apply (proj1 (C8_object_isolates_array_propagates failing_rec 10)
             [97] [[98]] 12 0 [Inline 5 (JInt 1)] [] (mkPayload [] 0)
             StructError (mkPayload [] 0)).
    reflexivity.
  - apply (proj1 (proj2 (proj2 (C8_object_isolates_array_propagates failing_rec 10)))
             [Inline 5 (JInt 1)] 12 0 [] (mkPayload [] 0) [JInt 1] (mkPayload [] 0)).
    + reflexivity.
    + reflexivity.
Defined.

(** C10: an object header with zero elements makes object decode raise
    (IndexError on [key_offset_lengths[0]] when the size is within the
    bound, the size error otherwise), while an array header with zero
    elements and a size within the bound gives an empty list. *)
Theorem C10_empty_object_raises (rec : Z -> Z -> M WrapperJson jval)
  (length : Z) (large : bool) (s s1 : WrapperJson) (size : Z) :
  read_count_size large s = (Ok (0, size), s1) ->
  fst (read_binary_json_object rec length large s)
    = Err (if size >? length then json_length_error else IndexError) /\
  (size <= length -> read_binary_json_array rec length large s = (Ok (JArr []), s1)).
Proof.
  intros Hhdr. split.
  - unfold read_binary_json_object, bind at 1. rewrite Hhdr. simpl.
    destruct (size >? length); reflexivity.
  - intros Hsize.
    assert (Hle : (size >? length) = false) by (rewrite Z.gtb_ltb; apply Z.ltb_ge; lia).
    unfold read_binary_json_array, bind at 1. rewrite Hhdr. simpl.
    rewrite Hle. reflexivity.
Qed.

Lemma C10_witness :
  fst (read_binary_json_object (read_binary_json_type_fuel 3) 10 false
         (mkPayload [0; 0; 4; 0] 0)) = Err IndexError /\
  read_binary_json_array (read_binary_json_type_fuel 3) 10 false (mkPayload [0; 0; 4; 0] 0)
    = (Ok (JArr []), mkPayload [0; 0; 4; 0] 4).
Proof.
  pose proof (C10_empty_object_raises (read_binary_json_type_fuel 3) 10 false
                (mkPayload [0; 0; 4; 0] 0) (mkPayload [0; 0; 4; 0] 4) 4 eq_refl)
    as [Hobj Harr].
  split; [exact Hobj|apply Harr; lia].
Defined.

(** * Further properties of the decoders *)

(** ** Bit arithmetic *)

(** [x | (y << k)] is [x + y * 2^k] when [x] fits in [k] bits. *)
Lemma lor_shiftl_add (x y k : Z) :
  0 <= k -> 0 <= x < 2 ^ k -> Z.lor x (Z.shiftl y k) = x + y * 2 ^ k.
Proof.
  intros Hk Hx.
  assert (Hland : Z.land x (Z.shiftl y k) = 0).
  { apply Z.bits_inj'. intros i Hi. rewrite Z.land_spec, Z.bits_0.
    destruct (Z.lt_ge_cases i k) as [Hik|Hik].
    - rewrite Z.shiftl_spec_low by exact Hik. apply andb_false_r.
    - rewrite <- (Z.mod_small x (2 ^ k)) by exact Hx.
      rewrite Z.mod_pow2_bits_high by lia. reflexivity. }
  rewrite <- Z.lxor_lor by exact Hland.
  rewrite <- Z.add_nocarry_lxor by exact Hland.
  rewrite Z.shiftl_mul_pow2 by exact Hk. reflexivity.
Qed.

(** ** Little-endian readers of StructMysql *)

Section StructMysqlProperties.
Context {S : Type} `{StructMysql S}.

Lemma read_uint_by_size_spec (hdr : bytes) (s s' : S) :
  (1 <= List.length hdr <= 8)%nat ->
  read (py_len hdr) s = (Ok hdr, s') ->
  read_uint_by_size (py_len hdr) s = (Ok (Some (le_val hdr)), s').
Proof.
  intros Hlen Hread.
  destruct hdr as [|b0 [|b1 [|b2 [|b3 [|b4 [|b5 [|b6 [|b7 [|b8 rest]]]]]]]]];
    simpl in Hlen; try lia; unfold py_len in Hread; simpl in Hread;
    unfold read_uint_by_size, read_uint8, read_uint16, read_uint24, read_uint32,
      read_uint40, read_uint48, read_uint56, read_uint64, read_unpack, read_fields, bind;
    cbn -[Z.add Z.mul Z.shiftl le_val]; rewrite Hread; cbn -[Z.add Z.mul Z.shiftl];
    unfold ret; do 3 f_equal; rewrite ?Z.shiftl_mul_pow2 by lia; ring.
Qed.

Lemma read_length_coded_pascal_string_reads_length (hdr : bytes) (s s1 : S) (r : result bytes * S) :
  (1 <= List.length hdr <= 8)%nat ->
  read (py_len hdr) s = (Ok hdr, s1) ->
  read (le_val hdr) s1 = r ->
  read_length_coded_pascal_string (py_len hdr) s = r.
Proof.
  intros Hlen Hhdr Hdata.
  unfold read_length_coded_pascal_string, bind at 1.
  rewrite (read_uint_by_size_spec hdr s s1 Hlen Hhdr). exact Hdata.
Qed.

(** [read_int24] on three bytes is their little-endian value read as a
    signed 24-bit integer. *)
Lemma read_int24_signed (a b c : Z) (s s' : S) :
  0 <= a < 256 -> 0 <= b < 256 -> 0 <= c < 256 ->
  read 3 s = (Ok [a; b; c], s') ->
  read_int24 s = (Ok (to_signed 3 (le_val [a; b; c])), s').
Proof.
  intros Ha Hb Hc Hread.
  unfold read_int24, read_fields, bind.
  cbn -[Z.add Z.mul Z.shiftl Z.lor le_val to_signed]. rewrite Hread.
  cbn -[Z.add Z.mul Z.shiftl Z.lor le_val to_signed].
  assert (E : Z.lor (Z.lor (le_val [a]) (Z.shiftl (le_val [b]) 8)) (Z.shiftl (le_val [c]) 16)
              = le_val [a; b; c]).
  { cbn [le_val]. rewrite !Z.mul_0_r, !Z.add_0_r.
    rewrite (lor_shiftl_add a b 8) by (cbn; lia).
    rewrite lor_shiftl_add by (cbn; lia).
    ring. }
  rewrite E. reflexivity.
Qed.

(** [read_int24_be] on three bytes is their big-endian value read as a
    signed 24-bit integer. *)
Lemma read_int24_be_signed (a b c : Z) (s s' : S) :
  0 <= a < 256 -> 0 <= b < 256 -> 0 <= c < 256 ->
  read 3 s = (Ok [a; b; c], s') ->
  read_int24_be s = (Ok (to_signed 3 (be_val [a; b; c])), s').
Proof.
  intros Ha Hb Hc Hread.
  unfold read_int24_be, bind. rewrite Hread.
  cbn -[Z.add Z.mul Z.shiftl Z.lor be_val to_signed].
  assert (E : Z.lor (Z.lor (Z.shiftl (be_val [a]) 16) (Z.shiftl (be_val [b]) 8)) (be_val [c])
              = be_val [a; b; c]).
  { unfold be_val. cbn [le_val rev app]. rewrite !Z.mul_0_r, !Z.add_0_r.
    rewrite <- Z.lor_assoc, (Z.lor_comm (Z.shiftl b 8) c).
    rewrite lor_shiftl_add by (cbn; lia).
    rewrite Z.lor_comm, lor_shiftl_add by (cbn; lia).
    ring. }
  rewrite E. reflexivity.
Qed.

(** [read_int40_be] on five bytes is their big-endian value, unsigned:
    no sign extension at bit 39. *)
Lemma read_int40_be_unsigned (x0 x1 x2 x3 x4 : Z) (s s' : S) :
  read 5 s = (Ok [x0; x1; x2; x3; x4], s') ->
  read_int40_be s = (Ok (be_val [x0; x1; x2; x3; x4]), s').
Proof.
  intros Hread.
  unfold read_int40_be, bind. rewrite Hread.
  cbn -[Z.add Z.mul Z.shiftl be_val].
  unfold ret. do 2 f_equal. unfold be_val. cbn [le_val rev app].
  rewrite Z.shiftl_mul_pow2 by lia. ring.
Qed.

Lemma read_length_coded_pascal_string_bad_size (size : Z) (s : S) :
  ~ (1 <= size <= 8) ->
  read_uint_by_size size s = (Ok None, s) /\
  read_length_coded_pascal_string size s = (Err TypeError, s).
Proof.
  intros Hsize.
  unfold read_length_coded_pascal_string, read_uint_by_size, bind.
  repeat match goal with
         | |- context [size =? ?k] => destruct (Z.eqb_spec size k); [lia|]
         end.
  split; reflexivity.
Qed.

(** [read_uint_by_size(n)] for [n] in 1..8 reads [n] bytes and returns
    their unsigned little-endian value; any other [n] returns None without
    reading. *)
Lemma read_uint_by_size_le (hdr : bytes) (size : Z) (s s' : S) :
  ((1 <= List.length hdr <= 8)%nat ->
   read (py_len hdr) s = (Ok hdr, s') ->
   read_uint_by_size (py_len hdr) s = (Ok (Some (le_val hdr)), s')) /\
  (~ (1 <= size <= 8) -> read_uint_by_size size s = (Ok None, s)).
Proof.
  split.
  - apply read_uint_by_size_spec.
  - intros Hsize. exact (proj1 (read_length_coded_pascal_string_bad_size size s Hsize)).
Qed.

End StructMysqlProperties.

(** ** Reading a WrapperPayload *)

Lemma py_slice_mid {A} (pre mid post : list A) :
  py_slice (pre ++ mid ++ post) (py_len pre) (py_len pre + py_len mid) = mid.
Proof.
  rewrite py_slice_nonneg by (unfold py_len; lia).
  unfold py_len. replace (Z.of_nat (List.length pre) + Z.of_nat (List.length mid)
                           - Z.of_nat (List.length pre)) with (Z.of_nat (List.length mid)) by ring.
  rewrite !Nat2Z.id, skipn_app, skipn_all, Nat.sub_diag. simpl.
  rewrite firstn_app, firstn_all, Nat.sub_diag. simpl. apply app_nil_r.
Qed.

Lemma payload_read_mid (pre mid post : bytes) (n : Z) :
  n = py_len mid ->
  read n (mkPayload (pre ++ mid ++ post) (py_len pre))
  = (Ok mid, mkPayload (pre ++ mid ++ post) (py_len pre + py_len mid)).
Proof.
  intros ->. simpl. unfold payload_read. simpl.
  replace (py_len pre + py_len mid - py_len mid) with (py_len pre) by ring.
  rewrite py_slice_mid. reflexivity.
Qed.

Lemma py_len_app {A} (l1 l2 : list A) : py_len (l1 ++ l2) = py_len l1 + py_len l2.
Proof. unfold py_len. rewrite length_app. lia. Qed.

(** A read of [n >= 0] bytes from position [py_len pre] returns the first
    [n] bytes after [pre], fewer when the payload is shorter. *)
Lemma payload_read_after (pre data : bytes) (n : Z) :
  0 <= n ->
  read n (mkPayload (pre ++ data) (py_len pre))
  = (Ok (firstn (Z.to_nat n) data), mkPayload (pre ++ data) (py_len pre + n)).
Proof.
  intros Hn. simpl. unfold payload_read. simpl.
  replace (py_len pre + n - n) with (py_len pre) by ring.
  rewrite py_slice_nonneg by (unfold py_len; lia).
  replace (py_len pre + n - py_len pre) with n by ring.
  unfold py_len. rewrite Nat2Z.id, skipn_app, skipn_all, Nat.sub_diag. reflexivity.
Qed.

(** ** Variable-length integers: 7 bits per byte, high bit = more bytes *)

(** A well-formed variable-length integer: bytes with the high bit set,
    then one byte without it. *)
Fixpoint varint_ok (bs : bytes) : bool :=
  match bs with
  | [] => false
  | [b] => (0 <=? b) && (b <? 128)
  | b :: rest => (128 <=? b) && (b <? 256) && varint_ok rest
  end.

(** Its value: the low 7 bits of each byte, least significant first. *)
Fixpoint varint_value (bs : bytes) : Z :=
  match bs with
  | [] => 0
  | b :: rest => b mod 128 + 128 * varint_value rest
  end.

Lemma varint_ok_cons (b b' : Z) (r : bytes) :
  varint_ok (b :: b' :: r) = (128 <=? b) && (b <? 256) && varint_ok (b' :: r).
Proof. reflexivity. Qed.

Lemma land_128_byte (b : Z) : 0 <= b < 256 -> (Z.land b 128 =? 0) = (b <? 128).
Proof.
  intros Hb. rewrite <- (Z2Nat.id b) by lia.
  assert (Hn : (Z.to_nat b < 256)%nat) by lia.
  generalize (Z.to_nat b) Hn. clear b Hb Hn. intros n Hn.
  do 256 (destruct n as [|n]; [reflexivity|]). lia.
Qed.

Lemma varint_value_nonneg (bs : bytes) : 0 <= varint_value bs.
Proof.
  induction bs as [|b r IH]; cbn [varint_value]; [lia|].
  pose proof (Z.mod_pos_bound b 128 ltac:(lia)). lia.
Qed.

Lemma varlen_loop_payload (enc : bytes) :
  forall (pre rest : bytes) (fuel : nat) (byte length bits : Z),
  varint_ok enc = true -> (List.length enc <= fuel)%nat ->
  Z.land byte 128 <> 0 -> 0 <= bits -> 0 <= length < 2 ^ bits ->
  varlen_loop fuel byte length bits (mkPayload (pre ++ enc ++ rest) (py_len pre))
  = (Ok (length + varint_value enc * 2 ^ bits),
     mkPayload (pre ++ enc ++ rest) (py_len pre + py_len enc)).
Proof.
  induction enc as [|b r IH]; intros pre rest fuel byte length bits Hok Hfuel Hbyte Hbits Hlen;
    [discriminate|].
  destruct fuel as [|f]; [simpl in Hfuel; lia|].
  assert (Hb : 0 <= b < 256 /\ (r = [] <-> b < 128)).
  { destruct r as [|b' r']; simpl in Hok.
    - apply andb_true_iff in Hok as [H1 H2]. apply Z.leb_le in H1. apply Z.ltb_lt in H2.
      split; [lia|]. split; [lia|reflexivity].
    - apply andb_true_iff in Hok as [Hok _]. apply andb_true_iff in Hok as [H1 H2].
      apply Z.leb_le in H1. apply Z.ltb_lt in H2. split; [lia|]. split; [discriminate|lia]. }
  destruct Hb as [Hb Hlast].
  assert (Hlow : Z.land b 127 = b mod 128).
  { change 127 with (Z.ones 7). rewrite Z.land_ones by lia. reflexivity. }
  pose proof (Z.mod_pos_bound b 128 ltac:(lia)) as Hmod.
  assert (Hpow : 2 ^ (bits + 7) = 2 ^ bits * 128).
  { rewrite Z.pow_add_r by lia. reflexivity. }
  pose proof (Z.pow_pos_nonneg 2 bits ltac:(lia) Hbits) as Hpos.
  cbn [varlen_loop]. rewrite (proj2 (Z.eqb_neq _ _) Hbyte).
  change ((b :: r) ++ rest) with ([b] ++ (r ++ rest)).
  unfold bind at 1. unfold bind at 1.
  rewrite (payload_read_mid pre [b] (r ++ rest) 1 eq_refl).
  assert (Hbi : byte2int [b] = Ok b).
  { unfold byte2int, unpack1, struct_unpack. simpl. unfold be_val. cbn [rev app le_val]. rewrite Z.mul_0_r, Z.add_0_r. reflexivity. }
  rewrite Hbi. cbn [lift ret]. rewrite Hlow.
  destruct r as [|b' r'].
  - assert (Hlt : b < 128) by (apply Hlast; reflexivity).
    destruct f; cbn [varlen_loop];
      rewrite (land_128_byte b Hb), (proj2 (Z.ltb_lt _ _) Hlt); unfold ret;
      rewrite lor_shiftl_add by lia; cbn [varint_value];
      f_equal; f_equal; ring.
  - rewrite varint_ok_cons in Hok.
    apply andb_true_iff in Hok as [_ Hok].
    assert (Hge : 128 <= b) by (destruct (Z.lt_ge_cases b 128) as [Hl|Hl];
                                 [apply Hlast in Hl; discriminate|exact Hl]).
    assert (Hbyte' : Z.land b 128 <> 0).
    { apply Z.eqb_neq. rewrite (land_128_byte b Hb). apply Z.ltb_ge. exact Hge. }
    replace (mkPayload (pre ++ [b] ++ (b' :: r') ++ rest) (py_len pre + py_len [b]))
      with (mkPayload ((pre ++ [b]) ++ (b' :: r') ++ rest) (py_len (pre ++ [b])))
      by (rewrite <- app_assoc, py_len_app; reflexivity).
    rewrite lor_shiftl_add by lia.
    rewrite IH; [| exact Hok | simpl in Hfuel |- *; lia | exact Hbyte' | lia
                 | rewrite Hpow; nia].
    rewrite <- app_assoc, py_len_app. f_equal.
    + f_equal. rewrite Hpow. cbn [varint_value]. ring.
    + f_equal. unfold py_len. cbn [List.length]. lia.
Qed.

Lemma read_variable_length_string_json_decodes (pre enc data : bytes) :
  varint_ok enc = true ->
  read_variable_length_string_json (mkPayload (pre ++ enc ++ data) (py_len pre))
  = (Ok (firstn (Z.to_nat (varint_value enc)) data),
     mkPayload (pre ++ enc ++ data) (py_len pre + py_len enc + varint_value enc)).
Proof.
  intros Hok.
  unfold read_variable_length_string_json, read_variable_length_string_fuel.
  unfold bind at 1, get. cbn [payload].
  unfold bind at 1.
  rewrite varlen_loop_payload by
    (try exact Hok; try (rewrite !length_app; lia); try discriminate; lia).
  replace (0 + varint_value enc * 2 ^ 0) with (varint_value enc) by ring.
  rewrite app_assoc, <- py_len_app.
  rewrite payload_read_after by apply varint_value_nonneg.
  reflexivity.
Qed.

(** [read_variable_length_string] after a well-formed length prefix: the
    prefix is consumed, its 7-bit groups give the length, and that many of
    the following bytes are returned (fewer when the payload ends first);
    a JSONB string value (tag 12) is that byte string. *)
Lemma read_binary_json_type_string (length : Z) (pre enc data : bytes) :
  varint_ok enc = true ->
  read_variable_length_string_json (mkPayload (pre ++ enc ++ data) (py_len pre))
  = (Ok (firstn (Z.to_nat (varint_value enc)) data),
     mkPayload (pre ++ enc ++ data) (py_len pre + py_len enc + varint_value enc)) /\
  read_binary_json_type JSONB_TYPE_STRING length (mkPayload (pre ++ enc ++ data) (py_len pre))
  = (Ok (JStr (firstn (Z.to_nat (varint_value enc)) data)),
     mkPayload (pre ++ enc ++ data) (py_len pre + py_len enc + varint_value enc)).
Proof.
  intros Hok. split; [apply read_variable_length_string_json_decodes; exact Hok|].
  unfold read_binary_json_type.
  replace (Z.to_nat length + 2)%nat with (Datatypes.S (Z.to_nat length + 1)) by lia.
  cbn -[read_variable_length_string_json].
  unfold bind at 1. rewrite read_variable_length_string_json_decodes by exact Hok.
  reflexivity.
Qed.

(** A length-prefixed string in a payload: [size] header bytes, then as
    many bytes as the header says, fewer when the payload ends first; a
    size outside 1..8 raises TypeError ([self.read(None)]) before reading. *)
Lemma read_length_coded_pascal_string_payload (pre hdr data : bytes) (size : Z)
  (s : WrapperPayload) :
  ((1 <= List.length hdr <= 8)%nat -> 0 <= le_val hdr ->
   read_length_coded_pascal_string (py_len hdr) (mkPayload (pre ++ hdr ++ data) (py_len pre))
   = (Ok (firstn (Z.to_nat (le_val hdr)) data),
      mkPayload (pre ++ hdr ++ data) (py_len pre + py_len hdr + le_val hdr))) /\
  (~ (1 <= size <= 8) -> read_length_coded_pascal_string size s = (Err TypeError, s)).
Proof.
  split; [|intros Hsize; exact (proj2 (read_length_coded_pascal_string_bad_size size s Hsize))].
  intros Hlen Hval.
  apply read_length_coded_pascal_string_reads_length
    with (s1 := mkPayload (pre ++ hdr ++ data) (py_len pre + py_len hdr)).
  - exact Hlen.
  - apply payload_read_mid. reflexivity.
  - rewrite app_assoc, <- py_len_app. apply payload_read_after. exact Hval.
Qed.

(** ** unpack_* helpers on a buffer *)

Lemma unpack_uint16_prefix (n : bytes) :
  unpack_uint16 n
  = if (2 <=? List.length n)%nat then Ok (le_val (firstn 2 n)) else Err StructError.
Proof.
  destruct n as [|a [|b rest]]; try reflexivity.
  unfold unpack_uint16. rewrite py_slice_nonneg by lia. reflexivity.
Qed.

Lemma unpack_int24_prefix (n : bytes) :
  unpack_int24 n
  = if (3 <=? List.length n)%nat then Ok (le_val (firstn 3 n)) else Err IndexError.
Proof.
  destruct n as [|a [|b [|c rest]]]; try reflexivity.
  unfold unpack_int24, py_index. cbn -[Z.add Z.mul Z.shiftl]. simpl nth_error. cbv beta iota.
  f_equal. rewrite !Z.shiftl_mul_pow2 by lia. ring.
Qed.

Lemma unpack_int32_prefix (n : bytes) :
  unpack_int32 n
  = if (4 <=? List.length n)%nat then Ok (le_val (firstn 4 n)) else Err IndexError.
Proof.
  destruct n as [|a [|b [|c [|d rest]]]]; try reflexivity.
  unfold unpack_int32, py_index. cbn -[Z.add Z.mul Z.shiftl]. simpl nth_error. cbv beta iota.
  f_equal. rewrite !Z.shiftl_mul_pow2 by lia. ring.
Qed.

Lemma unpack_int64_prefix (n : bytes) :
  unpack_int64 n
  = if (5 <=? List.length n)%nat then Ok (le_val (firstn 5 n)) else Err IndexError.
Proof.
  destruct n as [|a [|b [|c [|d [|e rest]]]]]; try reflexivity.
  unfold unpack_int64, py_index. cbn -[Z.add Z.mul Z.shiftl]. simpl nth_error. cbv beta iota.
  f_equal. rewrite !Z.shiftl_mul_pow2 by lia. ring.
Qed.

(** [unpack_uint16], [unpack_int24], [unpack_int32] and [unpack_int64]
    give the unsigned little-endian value of the first 2, 3, 4 and 5 items
    of their argument, ignoring the rest; a shorter argument raises
    struct.error for [unpack_uint16] and IndexError for the others. *)
Lemma unpack_helpers_prefix (n : bytes) :
  unpack_uint16 n
  = (if (2 <=? List.length n)%nat then Ok (le_val (firstn 2 n)) else Err StructError) /\
  unpack_int24 n
  = (if (3 <=? List.length n)%nat then Ok (le_val (firstn 3 n)) else Err IndexError) /\
  unpack_int32 n
  = (if (4 <=? List.length n)%nat then Ok (le_val (firstn 4 n)) else Err IndexError) /\
  unpack_int64 n
  = (if (5 <=? List.length n)%nat then Ok (le_val (firstn 5 n)) else Err IndexError).
Proof.
  refine (conj _ (conj _ (conj _ _))).
  - apply unpack_uint16_prefix.
  - apply unpack_int24_prefix.
  - apply unpack_int32_prefix.
  - apply unpack_int64_prefix.
Qed.

(** ** Consecutive reads *)

Lemma firstn_add {A} (n m : nat) (l : list A) :
  firstn (n + m) l = firstn n l ++ firstn m (skipn n l).
Proof.
  revert l. induction n as [|n IH]; intros l; [reflexivity|].
  destruct l as [|x l]; simpl.
  - now rewrite firstn_nil.
  - f_equal. apply IH.
Qed.

(** On a WrapperPayload, reading [a] then [b] bytes returns the same bytes
    and leaves the same position as one read of [a + b] bytes. *)
Lemma payload_read_seq (bs : bytes) (p a b : Z) :
  0 <= p -> 0 <= a -> 0 <= b ->
  (x <- read a ;; y <- read b ;; ret (x ++ y)) (mkPayload bs p)
  = read (a + b) (mkPayload bs p).
Proof.
  intros Hp Ha Hb.
  cbn [bind read WrapperPayload_StructMysql payload_read ret payload point].
  unfold payload_read, ret. cbn [payload point].
  replace (p + a + b) with (p + (a + b)) by ring.
  replace (p + a - a) with p by ring.
  replace (p + (a + b) - b) with (p + a) by ring.
  replace (p + (a + b) - (a + b)) with p by ring.
  rewrite !py_slice_nonneg by lia.
  replace (p + a - p) with a by ring.
  replace (p + (a + b) - (p + a)) with b by ring.
  replace (p + (a + b) - p) with (a + b) by ring.
  rewrite (Z2Nat.inj_add a b) by lia. rewrite firstn_add. rewrite skipn_skipn.
  rewrite <- (Z2Nat.inj_add a p) by lia. rewrite (Z.add_comm a p). reflexivity.
Qed.

(** ** JSONB values *)

Lemma read_unpack_mid (e : endian) (c : fmt_char) (pre mid rest : bytes) :
  List.length mid = fmt_size c ->
  read_unpack e c (mkPayload (pre ++ mid ++ rest) (py_len pre))
  = lift (unpack1 e c mid) (mkPayload (pre ++ mid ++ rest) (py_len pre + py_len mid)).
Proof.
  intros Hlen. unfold read_unpack, bind.
  rewrite (payload_read_mid pre mid rest) by (unfold py_len; rewrite Hlen; reflexivity).
  reflexivity.
Qed.

Lemma read_unpack_shape (e : endian) (c : fmt_char) (s : WrapperPayload) :
  exists r, read_unpack e c s = (r, mkPayload (payload s) (point s + Z.of_nat (fmt_size c))).
Proof.
  unfold read_unpack, bind, lift, ret, raise. simpl.
  destruct (unpack1 e c _); eexists; reflexivity.
Qed.

Lemma read_uint8_byte (pre rest : bytes) (v : Z) :
  read_uint8 (mkPayload (pre ++ v :: rest) (py_len pre))
  = (Ok v, mkPayload (pre ++ v :: rest) (py_len pre + 1)).
Proof.
  unfold read_uint8. change (v :: rest) with ([v] ++ rest).
  rewrite read_unpack_mid by reflexivity.
  unfold unpack1, struct_unpack. cbn -[Z.add Z.mul]. rewrite Z.mul_0_r, Z.add_0_r.
  reflexivity.
Qed.

(** Tags outside the table raise [ValueError('Json type %d is not
    handled')] before reading anything. *)
Lemma read_binary_json_type_unknown_tag (t length : Z) (s : WrapperJson) :
  ~ (0 <= t <= 12) -> t <> 15 ->
  read_binary_json_type t length s = (Err (type_not_handled t), s).
Proof.
  intros Ht Ht15. unfold read_binary_json_type.
  replace (Z.to_nat length + 2)%nat with (Datatypes.S (Z.to_nat length + 1)) by lia.
  cbn [read_binary_json_type_fuel].
  unfold JSONB_TYPE_SMALL_OBJECT, JSONB_TYPE_LARGE_OBJECT, JSONB_TYPE_SMALL_ARRAY,
    JSONB_TYPE_LARGE_ARRAY, JSONB_TYPE_STRING, JSONB_TYPE_LITERAL, JSONB_TYPE_INT16,
    JSONB_TYPE_UINT16, JSONB_TYPE_DOUBLE, JSONB_TYPE_INT32, JSONB_TYPE_UINT32,
    JSONB_TYPE_INT64, JSONB_TYPE_UINT64, JSONB_TYPE_OPAQUE.
  repeat match goal with
         | |- context [t =? ?k] => destruct (Z.eqb_spec t k); [lia|]
         end.
  reflexivity.
Qed.

(** A literal whose value is not 0 (null), 1 (true) or 2 (false) raises
    [ValueError('Json type 4 is not handled')], naming the literal tag, both
    as a stored value (one value byte) and inlined in a small container slot
    (a 16-bit value after the tag byte). *)
Lemma literal_out_of_range (pre rest : bytes) (length v lo hi : Z) :
  v <> 0 -> v <> 1 -> v <> 2 ->
  ~ In (le_val [lo; hi]) [0; 1; 2] ->
  read_binary_json_type JSONB_TYPE_LITERAL length (mkPayload (pre ++ [v] ++ rest) (py_len pre))
  = (Err (type_not_handled JSONB_TYPE_LITERAL), mkPayload (pre ++ [v] ++ rest) (py_len pre + 1)) /\
  read_offset_or_inline false (mkPayload (pre ++ [4; lo; hi] ++ rest) (py_len pre))
  = (Err (type_not_handled JSONB_TYPE_LITERAL),
     mkPayload (pre ++ [4; lo; hi] ++ rest) (py_len pre + 3)).
Proof.
  intros H0 H1 H2 Hlh. split.
  - unfold read_binary_json_type.
    replace (Z.to_nat length + 2)%nat with (Datatypes.S (Z.to_nat length + 1)) by lia.
    cbn -[read_uint8 literal_value].
    unfold bind at 1. rewrite read_uint8_byte.
    unfold literal_value, JSONB_LITERAL_NULL, JSONB_LITERAL_TRUE, JSONB_LITERAL_FALSE.
    destruct (Z.eqb_spec v 0); [lia|]. destruct (Z.eqb_spec v 1); [lia|].
    destruct (Z.eqb_spec v 2); [lia|]. reflexivity.
  - unfold read_offset_or_inline, bind at 1.
    change ([4; lo; hi] ++ rest) with (4 :: ([lo; hi] ++ rest)).
    rewrite read_uint8_byte. cbn -[read_uint16 literal_value py_len].
    replace (mkPayload (pre ++ 4 :: lo :: hi :: rest) (py_len pre + 1))
      with (mkPayload ((pre ++ [4]) ++ [lo; hi] ++ rest) (py_len (pre ++ [4])))
      by (rewrite <- app_assoc, py_len_app; reflexivity).
    unfold bind at 1. unfold read_uint16. unfold bind at 1. rewrite read_unpack_mid by reflexivity.
    replace (unpack1 Little FH [lo; hi]) with (Ok (le_val [lo; hi]) : result Z)
      by (unfold unpack1, struct_unpack; reflexivity).
    cbn [lift ret].
    unfold literal_value, JSONB_LITERAL_NULL, JSONB_LITERAL_TRUE, JSONB_LITERAL_FALSE.
    destruct (Z.eqb_spec (le_val [lo; hi]) 0) as [E|_]; [rewrite E in Hlh; simpl in Hlh; tauto|].
    destruct (Z.eqb_spec (le_val [lo; hi]) 1) as [E|_]; [rewrite E in Hlh; simpl in Hlh; tauto|].
    destruct (Z.eqb_spec (le_val [lo; hi]) 2) as [E|_]; [rewrite E in Hlh; simpl in Hlh; tauto|].
    unfold raise. rewrite <- app_assoc, py_len_app. f_equal. f_equal. unfold py_len; simpl. lia.
Qed.

(** [WrapperJson.read_new_decimal] never returns: a short payload raises
    struct.error, otherwise [self.unread] raises AttributeError. *)
Lemma WrapperJson_read_new_decimal_raises (s : WrapperJson) :
  exists e s', WrapperJson_read_new_decimal s = (Err e, s').
Proof.
  unfold WrapperJson_read_new_decimal, read_new_decimal.
  unfold bind at 1. destruct (read_uint8 s) as [[p|e] s1]; [|eauto].
  unfold bind at 1. destruct (read_uint8 s1) as [[d|e] s2]; [|eauto].
  unfold bind at 1. destruct (read_uint8 s2) as [[v|e] s3]; [|eauto].
  destruct (negb (Z.land v 128 =? 0)); eexists; eexists; reflexivity.
Qed.

(** An OPAQUE value (tag 15) is never decoded: whatever the payload,
    [read_binary_json_type] raises. *)
Lemma read_binary_json_type_opaque_raises (length : Z) (s : WrapperJson) :
  exists e s', read_binary_json_type JSONB_TYPE_OPAQUE length s = (Err e, s').
Proof.
  unfold read_binary_json_type.
  replace (Z.to_nat length + 2)%nat with (Datatypes.S (Z.to_nat length + 1)) by lia.
  cbn -[read_opaque]. unfold read_opaque, bind at 1.
  destruct (read_uint8 s) as [[t|e] s1]; [|eauto].
  destruct (t =? 246).
  - unfold bind at 1. destruct (WrapperJson_read_new_decimal_raises s1) as [e [s2 ->]]. eauto.
  - eexists; eexists; reflexivity.
Qed.

(** ** Objects have unique keys; arrays have [elements] values *)











Lemma repeat_m_length {S A} (n : nat) (f : M S A) (s s' : S) (xs : list A) :
  repeat_m n f s = (Ok xs, s') -> List.length xs = n.
Proof.
  revert s xs. induction n as [|n IH]; intros s xs Hrun; simpl in Hrun.
  - inversion Hrun; reflexivity.
  - apply bind_Ok_inv in Hrun as [x [s1 [_ Hrun]]].
    apply bind_Ok_inv in Hrun as [rest [s2 [Hrest Hrun]]].
    inversion Hrun; subst. simpl. f_equal. eapply IH; exact Hrest.
Qed.

Lemma map_m_length {S A B} (f : A -> M S B) (l : list A) (s s' : S) (ys : list B) :
  map_m f l s = (Ok ys, s') -> List.length ys = List.length l.
Proof.
  revert s ys. induction l as [|x l IH]; intros s ys Hrun; simpl in Hrun.
  - inversion Hrun; reflexivity.
  - apply bind_Ok_inv in Hrun as [y [s1 [_ Hrun]]].
    apply bind_Ok_inv in Hrun as [rest [s2 [Hrest Hrun]]].
    inversion Hrun; subst. simpl. f_equal. eapply IH; exact Hrest.
Qed.

(** A decoded JSONB array has exactly the number of values its header
    declares. *)
Lemma read_binary_json_array_length (rec : Z -> Z -> M WrapperJson jval)
  (length : Z) (large : bool) (s s1 s' : WrapperJson) (elements size : Z) (vs : list jval) :
  read_count_size large s = (Ok (elements, size), s1) ->
  read_binary_json_array rec length large s = (Ok (JArr vs), s') ->
  List.length vs = Z.to_nat elements.
Proof.
  intros Hhdr Hrun. unfold read_binary_json_array, bind at 1 in Hrun.
  rewrite Hhdr in Hrun.
  destruct (size >? length); [discriminate|].
  apply bind_Ok_inv in Hrun as [slots [s2 [Hslots Hrun]]].
  apply bind_Ok_inv in Hrun as [vs' [s3 [Hvs Hrun]]].
  unfold ret in Hrun. inversion Hrun; subst.
  rewrite (map_m_length _ _ _ _ _ Hvs).
  exact (repeat_m_length _ _ _ _ _ Hslots).
Qed.

(** ** Width of a value slot *)

Lemma snd_bind_state {S A B} (m : M S A) (k : A -> M S B) (s : S) :
  (forall a s1, snd (k a s1) = s1) -> snd (bind m k s) = snd (m s).
Proof.
  intros Hk. unfold bind. destruct (m s) as [[a|e] s1]; [apply Hk|reflexivity].
Qed.

Lemma literal_value_state (v : Z) (s : WrapperJson) : snd (literal_value v s) = s.
Proof.
  unfold literal_value.
  destruct (v =? _); [reflexivity|]. destruct (v =? _); [reflexivity|].
  destruct (v =? _); reflexivity.
Qed.

(** A slot of [read_offset_or_inline] is 3 bytes in a small container.
    In a large container it is 5 bytes, except an inlined INT16 or UINT16,
    which takes 3 bytes: the two bytes after its 16-bit value are left to
    be read as the next slot. *)
Lemma read_offset_or_inline_width (large : bool) (pre rest : bytes) (t : Z) :
  snd (read_offset_or_inline large (mkPayload (pre ++ t :: rest) (py_len pre)))
  = mkPayload (pre ++ t :: rest)
      (py_len pre + if large then (if (t =? JSONB_TYPE_INT16) || (t =? JSONB_TYPE_UINT16)
                                   then 3 else 5) else 3).
Proof.
  unfold read_offset_or_inline, bind at 1. rewrite read_uint8_byte.
  unfold read_binary_json_type_inlined, JSONB_TYPE_LITERAL, JSONB_TYPE_INT16,
    JSONB_TYPE_UINT16, JSONB_TYPE_INT32, JSONB_TYPE_UINT32, JSONB_TYPE_INT64,
    JSONB_TYPE_UINT64.
  assert (Ht : t = 4 \/ t = 5 \/ t = 6 \/ t = 7 \/ t = 8 \/ ~ In t [4; 5; 6; 7; 8])
    by (simpl; lia).
  destruct large;
    destruct Ht as [Ht|[Ht|[Ht|[Ht|[Ht|Ht]]]]]; simpl In in Ht;
    repeat match goal with
           | |- context [t =? ?k] =>
             first [rewrite (proj2 (Z.eqb_eq t k)) by lia
                   |rewrite (proj2 (Z.eqb_neq t k)) by lia]
           end;
    cbn [orb andb];
    repeat (rewrite snd_bind_state
             by (intros; first [reflexivity|apply literal_value_state]));
    unfold read_uint16, read_uint32, read_int16, read_int32;
    rewrite read_unpack_state; cbn [payload point fmt_size Z.of_nat];
    f_equal; lia.
Qed.

(** ** The push-back buffer of BinLogPacketWrapper *)

Section WrapperBuffer.
Context {P : Type} `{Packet P}.

Lemma buffer_nonempty (buf : bytes) : buf <> [] -> (0 <? py_len buf) = true.
Proof.
  intros Hb. apply Z.ltb_lt. destruct buf; [congruence|unfold py_len; simpl; lia].
Qed.

(** [read(n)] with a non-empty push-back buffer: [n] bytes of the buffer
    when it holds that many, the packet untouched; otherwise the whole buffer
    followed by the missing bytes from the packet, the buffer emptied. *)
Lemma wrapper_read_from_buffer (n rb : Z) (buf : bytes) (p : P) :
  buf <> [] -> 0 <= n ->
  (n <= py_len buf ->
   wrapper_read n (mkWrapper rb buf p)
   = (Ok (firstn (Z.to_nat n) buf), mkWrapper (rb + n) (skipn (Z.to_nat n) buf) p)) /\
  (py_len buf < n ->
   wrapper_read n (mkWrapper rb buf p)
   = (match fst (packet_read (n - py_len buf) p) with
      | Ok rest => Ok (buf ++ rest)
      | Err e => Err e
      end,
      mkWrapper (rb + n) [] (snd (packet_read (n - py_len buf) p)))).
Proof.
  intros Hb Hn.
  unfold wrapper_read, bind, get, put, set_read_bytes, set_data_buffer, ret.
  cbn [data_buffer read_bytes packet]. rewrite (buffer_nonempty buf Hb).
  rewrite py_slice_prefix, py_slice_suffix by exact Hn.
  split; intros Hle.
  - replace (py_len (firstn (Z.to_nat n) buf) =? n) with true.
    + reflexivity.
    + symmetry. apply Z.eqb_eq. unfold py_len in *. rewrite length_firstn. lia.
  - rewrite (firstn_all2 (n := Z.to_nat n)) by (unfold py_len in Hle; lia).
    rewrite (skipn_all2 (n := Z.to_nat n)) by (unfold py_len in Hle; lia).
    replace (py_len buf =? n) with false by (symmetry; apply Z.eqb_neq; lia).
    unfold on_packet. cbn [data_buffer read_bytes packet].
    destruct (packet_read (n - py_len buf) p) as [[r|e] p']; reflexivity.
Qed.

(** [advance(n)] with a non-empty push-back buffer: the same split, the
    packet advanced only by what the buffer did not cover. *)
Lemma wrapper_advance_from_buffer (n rb : Z) (buf : bytes) (p : P) :
  buf <> [] -> 0 <= n ->
  (n <= py_len buf ->
   wrapper_advance n (mkWrapper rb buf p)
   = (Ok tt, mkWrapper (rb + n) (skipn (Z.to_nat n) buf) p)) /\
  (py_len buf < n ->
   wrapper_advance n (mkWrapper rb buf p)
   = (fst (packet_advance (n - py_len buf) p),
      mkWrapper (rb + n) [] (snd (packet_advance (n - py_len buf) p)))).
Proof.
  intros Hb Hn.
  unfold wrapper_advance, bind, get, put, set_read_bytes, set_data_buffer, ret.
  cbn [data_buffer read_bytes packet]. rewrite (buffer_nonempty buf Hb).
  rewrite py_slice_suffix by exact Hn.
  split; intros Hle.
  - replace (n >? py_len buf) with false
      by (symmetry; rewrite Z.gtb_ltb; apply Z.ltb_ge; lia).
    reflexivity.
  - rewrite (skipn_all2 (n := Z.to_nat n)) by (unfold py_len in Hle; lia).
    replace (n >? py_len buf) with true
      by (symmetry; rewrite Z.gtb_ltb; apply Z.ltb_lt; lia).
    unfold on_packet. cbn [data_buffer read_bytes packet].
    destruct (packet_advance (n - py_len buf) p) as [r p']; reflexivity.
Qed.

(** A packet that yields fewer or more than 20 header bytes makes
    [__init__] raise struct.error. *)
Lemma init_short_header (use_checksum : bool) (allowed : Z -> bool)
  (handler : Z -> Z -> list cursor_op * bool) (p p1 : P) (raw : bytes) :
  packet_read 20 p = (Ok raw, p1) -> List.length raw <> 20%nat ->
  parse_header use_checksum raw = Err StructError /\
  BinLogPacketWrapper_init use_checksum allowed handler p = Err StructError.
Proof.
  intros Hread Hlen.
  assert (Hp : parse_header use_checksum raw = Err StructError).
  { unfold parse_header, struct_unpack.
    replace (Nat.eqb (List.length raw) (calcsize [Fc; FI; Fc; FI; FI; FI; FH])) with false
      by (symmetry; apply Nat.eqb_neq; exact Hlen).
    reflexivity. }
  split; [exact Hp|].
  unfold BinLogPacketWrapper_init, on_packet. cbn [packet]. rewrite Hread, Hp.
  reflexivity.
Qed.

End WrapperBuffer.

(** ** Length-coded integers in a payload *)

Lemma byte2int_single (b : Z) : byte2int [b] = Ok b.
Proof.
  unfold byte2int, unpack1, struct_unpack. simpl. unfold be_val.
  cbn [rev app le_val]. rewrite Z.mul_0_r, Z.add_0_r. reflexivity.
Qed.

Lemma read_prefix_byte {A} (pre rest : bytes) (c : Z) (k : Z -> M WrapperPayload A) :
  (x <- (b <- read 1 ;; lift (byte2int b)) ;; k x) (mkPayload (pre ++ c :: rest) (py_len pre))
  = k c (mkPayload (pre ++ c :: rest) (py_len pre + 1)).
Proof.
  unfold bind at 1 2. change (c :: rest) with ([c] ++ rest).
  rewrite (payload_read_mid pre [c] rest 1 eq_refl), byte2int_single. reflexivity.
Qed.

Lemma read_after_prefix (pre mid rest : bytes) (c n : Z) :
  n = py_len mid ->
  read n (mkPayload (pre ++ c :: mid ++ rest) (py_len pre + 1))
  = (Ok mid, mkPayload (pre ++ c :: mid ++ rest) (py_len pre + 1 + py_len mid)).
Proof.
  intros ->.
  replace (pre ++ c :: mid ++ rest) with ((pre ++ [c]) ++ mid ++ rest)
    by (rewrite <- app_assoc; reflexivity).
  replace (py_len pre + 1) with (py_len (pre ++ [c])) by (rewrite py_len_app; reflexivity).
  apply payload_read_mid. reflexivity.
Qed.

(** [read_length_coded_binary] at any position: a first byte below 0xFB
    is the value; 0xFB (NULL) and 0xFF give no value after one byte;
    0xFC and 0xFD give the little-endian value of the next 2 and 3 bytes;
    0xFE reads 8 more bytes and gives the value of the first 5 of them. *)
Lemma read_length_coded_binary_payload (pre rest mid2 mid3 mid8 : bytes) (c : Z) :
  List.length mid2 = 2%nat -> List.length mid3 = 3%nat -> List.length mid8 = 8%nat ->
  (0 <= c < 251 ->
   read_length_coded_binary (mkPayload (pre ++ c :: rest) (py_len pre))
   = (Ok (Some c), mkPayload (pre ++ c :: rest) (py_len pre + 1))) /\
  (c = 251 \/ c = 255 ->
   read_length_coded_binary (mkPayload (pre ++ c :: rest) (py_len pre))
   = (Ok None, mkPayload (pre ++ c :: rest) (py_len pre + 1))) /\
  read_length_coded_binary (mkPayload (pre ++ 252 :: mid2 ++ rest) (py_len pre))
  = (Ok (Some (le_val mid2)), mkPayload (pre ++ 252 :: mid2 ++ rest) (py_len pre + 3)) /\
  read_length_coded_binary (mkPayload (pre ++ 253 :: mid3 ++ rest) (py_len pre))
  = (Ok (Some (le_val mid3)), mkPayload (pre ++ 253 :: mid3 ++ rest) (py_len pre + 4)) /\
  read_length_coded_binary (mkPayload (pre ++ 254 :: mid8 ++ rest) (py_len pre))
  = (Ok (Some (le_val (firstn 5 mid8))),
     mkPayload (pre ++ 254 :: mid8 ++ rest) (py_len pre + 9)).
Proof.
  intros H2 H3 H8. unfold read_length_coded_binary.
  rewrite !read_prefix_byte.
  unfold NULL_COLUMN, UNSIGNED_CHAR_COLUMN, UNSIGNED_SHORT_COLUMN, UNSIGNED_INT24_COLUMN,
    UNSIGNED_INT64_COLUMN, UNSIGNED_SHORT_LENGTH, UNSIGNED_INT24_LENGTH,
    UNSIGNED_INT64_LENGTH.
  refine (conj _ (conj _ (conj _ (conj _ _)))).
  - intros Hc. destruct (Z.eqb_spec c 251); [lia|].
    destruct (Z.ltb_spec c 251); [reflexivity|lia].
  - intros Hc. destruct (Z.eqb_spec c 251) as [E|E]; [reflexivity|].
    destruct (Z.ltb_spec c 251); [lia|].
    destruct (Z.eqb_spec c 252); [lia|]. destruct (Z.eqb_spec c 253); [lia|].
    destruct (Z.eqb_spec c 254); [lia|]. reflexivity.
  - cbn -[read unpack_uint16 py_len]. unfold bind at 1.
    rewrite (read_after_prefix pre mid2 rest 252 2) by (unfold py_len; rewrite H2; reflexivity).
    rewrite unpack_uint16_prefix, H2. cbn [Nat.leb lift ret].
    rewrite (firstn_all2 (n := 2%nat)) by lia.
    unfold bind, ret, py_len. rewrite H2. do 2 f_equal. lia.
  - cbn -[read unpack_int24 py_len]. unfold bind at 1.
    rewrite (read_after_prefix pre mid3 rest 253 3) by (unfold py_len; rewrite H3; reflexivity).
    rewrite unpack_int24_prefix, H3. cbn [Nat.leb lift ret].
    rewrite (firstn_all2 (n := 3%nat)) by lia.
    unfold bind, ret, py_len. rewrite H3. do 2 f_equal. lia.
  - cbn -[read unpack_int64 py_len]. unfold bind at 1.
    rewrite (read_after_prefix pre mid8 rest 254 8) by (unfold py_len; rewrite H8; reflexivity).
    rewrite unpack_int64_prefix, H8. cbn [Nat.leb lift ret].
    unfold bind, ret, py_len. rewrite H8. do 2 f_equal. lia.
Qed.

(** * Instances of the properties above on concrete payloads *)

Definition int16_array : bytes := [2; 0; 10; 0; 5; 7; 0; 6; 9; 0].

Lemma read_uint_by_size_le_witness :
  read_uint_by_size (py_len [1; 2; 3]) (mkPayload [1; 2; 3; 9] 0)
    = (Ok (Some (le_val [1; 2; 3])), mkPayload [1; 2; 3; 9] 3) /\
  read_uint_by_size 9 (mkPayload [1; 2; 3; 9] 0) = (Ok None, mkPayload [1; 2; 3; 9] 0).
Proof.
  split.
  - apply (proj1 (read_uint_by_size_le [1; 2; 3] 9 (mkPayload [1; 2; 3; 9] 0)
                    (mkPayload [1; 2; 3; 9] 3))).
    + simpl. lia.
    + reflexivity.
  - apply (proj2 (read_uint_by_size_le [1; 2; 3] 9 (mkPayload [1; 2; 3; 9] 0)
                    (mkPayload [1; 2; 3; 9] 3))).
    lia.
Defined.

Lemma read_length_coded_pascal_string_payload_witness :
  read_length_coded_pascal_string (py_len [3]) (mkPayload ([7] ++ [3] ++ [65; 66; 67; 68]) (py_len [7]))
    = (Ok (firstn (Z.to_nat (le_val [3])) [65; 66; 67; 68]),
       mkPayload ([7] ++ [3] ++ [65; 66; 67; 68]) (py_len [7] + py_len [3] + le_val [3])) /\
  read_length_coded_pascal_string 0 (mkPayload [1] 0) = (Err TypeError, mkPayload [1] 0).
Proof.
  split.
  - apply (proj1 (read_length_coded_pascal_string_payload [7] [3] [65; 66; 67; 68] 0
                    (mkPayload [1] 0))).
    + simpl. lia.
    + simpl. lia.
  - apply (proj2 (read_length_coded_pascal_string_payload [7] [3] [65; 66; 67; 68] 0
                    (mkPayload [1] 0))).
    lia.
Defined.

Lemma read_binary_json_type_string_witness :
  varint_ok [129; 0] = true /\
  read_variable_length_string_json (mkPayload ([] ++ [129; 0] ++ [97; 98]) (py_len (@nil Z)))
  = (Ok (firstn (Z.to_nat (varint_value [129; 0])) [97; 98]),
     mkPayload ([] ++ [129; 0] ++ [97; 98])
       (py_len (@nil Z) + py_len [129; 0] + varint_value [129; 0])) /\
  read_binary_json_type JSONB_TYPE_STRING 10
    (mkPayload ([] ++ [129; 0] ++ [97; 98]) (py_len (@nil Z)))
  = (Ok (JStr (firstn (Z.to_nat (varint_value [129; 0])) [97; 98])),
     mkPayload ([] ++ [129; 0] ++ [97; 98])
       (py_len (@nil Z) + py_len [129; 0] + varint_value [129; 0])).
Proof.
  split; [reflexivity|].
  apply (read_binary_json_type_string 10 [] [129; 0] [97; 98]). reflexivity.
Defined.

Lemma read_int24_signed_witness :
  read_int24 (mkPayload [255; 255; 255] 0)
  = (Ok (to_signed 3 (le_val [255; 255; 255])), mkPayload [255; 255; 255] 3).
Proof.
  apply (read_int24_signed 255 255 255 (mkPayload [255; 255; 255] 0) (mkPayload [255; 255; 255] 3));
    [lia|lia|lia|reflexivity].
Defined.

Lemma read_int24_be_signed_witness :
  read_int24_be (mkPayload [128; 0; 1] 0)
  = (Ok (to_signed 3 (be_val [128; 0; 1])), mkPayload [128; 0; 1] 3).
Proof.
  apply (read_int24_be_signed 128 0 1 (mkPayload [128; 0; 1] 0) (mkPayload [128; 0; 1] 3));
    [lia|lia|lia|reflexivity].
Defined.

Lemma read_int40_be_unsigned_witness :
  read_int40_be (mkPayload [255; 0; 0; 1; 2] 0)
  = (Ok (be_val [255; 0; 0; 1; 2]), mkPayload [255; 0; 0; 1; 2] 5).
Proof.
  apply (read_int40_be_unsigned 255 0 0 1 2 (mkPayload [255; 0; 0; 1; 2] 0)
           (mkPayload [255; 0; 0; 1; 2] 5)).
  reflexivity.
Defined.

Lemma payload_read_seq_witness :
  (x <- read 2 ;; y <- read 5 ;; ret (x ++ y)) (mkPayload [1; 2; 3; 4; 5] 1)
  = read (2 + 5) (mkPayload [1; 2; 3; 4; 5] 1).
Proof. apply (payload_read_seq [1; 2; 3; 4; 5] 1 2 5); lia. Defined.

Lemma read_binary_json_type_unknown_tag_witness :
  read_binary_json_type 13 0 (mkPayload [1] 0) = (Err (type_not_handled 13), mkPayload [1] 0).
Proof. apply (read_binary_json_type_unknown_tag 13 0 (mkPayload [1] 0)); lia. Defined.

Lemma literal_out_of_range_witness :
  read_binary_json_type JSONB_TYPE_LITERAL 0 (mkPayload ([] ++ [7] ++ []) (py_len (@nil Z)))
  = (Err (type_not_handled JSONB_TYPE_LITERAL),
     mkPayload ([] ++ [7] ++ []) (py_len (@nil Z) + 1)) /\
  read_offset_or_inline false (mkPayload ([] ++ [4; 3; 0] ++ []) (py_len (@nil Z)))
  = (Err (type_not_handled JSONB_TYPE_LITERAL),
     mkPayload ([] ++ [4; 3; 0] ++ []) (py_len (@nil Z) + 3)).
Proof.
  apply (literal_out_of_range [] [] 0 7 3 0); [lia|lia|lia|simpl; lia].
Defined.


Lemma read_binary_json_array_length_witness :
  read_binary_json_array (read_binary_json_type_fuel 3) 100 false (mkPayload int16_array 0)
    = (Ok (JArr [JInt 7; JInt 9]), mkPayload int16_array 10) /\
  List.length [JInt 7; JInt 9] = Z.to_nat 2.
Proof.
  assert (Hrun : read_binary_json_array (read_binary_json_type_fuel 3) 100 false
                   (mkPayload int16_array 0)
                 = (Ok (JArr [JInt 7; JInt 9]), mkPayload int16_array 10)) by reflexivity.
  split; [exact Hrun|].
  exact (read_binary_json_array_length (read_binary_json_type_fuel 3) 100 false
           (mkPayload int16_array 0) (mkPayload int16_array 4) (mkPayload int16_array 10)
           2 10 [JInt 7; JInt 9] eq_refl Hrun).
Defined.

Lemma wrapper_read_from_buffer_witness :
  wrapper_read 2 (mkWrapper 0 [1; 2; 3] (mkPayload [4; 5; 6] 0))
    = (Ok (firstn (Z.to_nat 2) [1; 2; 3]),
       mkWrapper (0 + 2) (skipn (Z.to_nat 2) [1; 2; 3]) (mkPayload [4; 5; 6] 0)) /\
  wrapper_read 5 (mkWrapper 0 [1; 2; 3] (mkPayload [4; 5; 6] 0))
    = (match fst (packet_read (5 - py_len [1; 2; 3]) (mkPayload [4; 5; 6] 0)) with
       | Ok rest => Ok ([1; 2; 3] ++ rest)
       | Err e => Err e
       end,
       mkWrapper (0 + 5) [] (snd (packet_read (5 - py_len [1; 2; 3]) (mkPayload [4; 5; 6] 0)))).
Proof.
  split.
  - apply (proj1 (wrapper_read_from_buffer 2 0 [1; 2; 3] (mkPayload [4; 5; 6] 0)
                    ltac:(discriminate) ltac:(lia))).
    unfold py_len; simpl; lia.
  - apply (proj2 (wrapper_read_from_buffer 5 0 [1; 2; 3] (mkPayload [4; 5; 6] 0)
                    ltac:(discriminate) ltac:(lia))).
    unfold py_len; simpl; lia.
Defined.

Lemma wrapper_advance_from_buffer_witness :
  wrapper_advance 2 (mkWrapper 0 [1; 2; 3] (mkPayload [4; 5; 6] 0))
    = (Ok tt, mkWrapper (0 + 2) (skipn (Z.to_nat 2) [1; 2; 3]) (mkPayload [4; 5; 6] 0)) /\
  wrapper_advance 5 (mkWrapper 0 [1; 2; 3] (mkPayload [4; 5; 6] 0))
    = (fst (packet_advance (5 - py_len [1; 2; 3]) (mkPayload [4; 5; 6] 0)),
       mkWrapper (0 + 5) [] (snd (packet_advance (5 - py_len [1; 2; 3]) (mkPayload [4; 5; 6] 0)))).
Proof.
  split.
  - apply (proj1 (wrapper_advance_from_buffer 2 0 [1; 2; 3] (mkPayload [4; 5; 6] 0)
                    ltac:(discriminate) ltac:(lia))).
    unfold py_len; simpl; lia.
  - apply (proj2 (wrapper_advance_from_buffer 5 0 [1; 2; 3] (mkPayload [4; 5; 6] 0)
                    ltac:(discriminate) ltac:(lia))).
    unfold py_len; simpl; lia.
Defined.

Lemma init_short_header_witness :
  parse_header true [1; 2; 3] = Err StructError /\
  BinLogPacketWrapper_init true (fun _ => true) (fun _ _ => ([], true)) (mkPayload [1; 2; 3] 0)
    = Err StructError.
Proof.
  apply (init_short_header true (fun _ => true) (fun _ _ => ([], true))
           (mkPayload [1; 2; 3] 0) (mkPayload [1; 2; 3] 20) [1; 2; 3]).
  - reflexivity.
  - simpl. lia.
Defined.

Lemma read_length_coded_binary_payload_witness :
  read_length_coded_binary (mkPayload ([] ++ 7 :: []) (py_len (@nil Z)))
    = (Ok (Some 7), mkPayload ([] ++ 7 :: []) (py_len (@nil Z) + 1)) /\
  read_length_coded_binary (mkPayload ([] ++ 255 :: []) (py_len (@nil Z)))
    = (Ok None, mkPayload ([] ++ 255 :: []) (py_len (@nil Z) + 1)) /\
  read_length_coded_binary (mkPayload ([] ++ 254 :: [0; 0; 0; 0; 0; 1; 0; 0] ++ [])
                              (py_len (@nil Z)))
    = (Ok (Some (le_val (firstn 5 [0; 0; 0; 0; 0; 1; 0; 0]))),
       mkPayload ([] ++ 254 :: [0; 0; 0; 0; 0; 1; 0; 0] ++ []) (py_len (@nil Z) + 9)).
Proof.
  destruct (read_length_coded_binary_payload [] [] [1; 2] [1; 2; 3] [0; 0; 0; 0; 0; 1; 0; 0] 7
              eq_refl eq_refl eq_refl) as [H7 _].
  destruct (read_length_coded_binary_payload [] [] [1; 2] [1; 2; 3] [0; 0; 0; 0; 0; 1; 0; 0] 255
              eq_refl eq_refl eq_refl) as [_ [H255 [_ [_ H254]]]].
  refine (conj (H7 ltac:(lia)) (conj (H255 ltac:(lia)) H254)).
Defined.
